(** * ENG_APP: the TSN feature-transformation and inference pipeline

    A shallow embedding of [src/ENG_APP.py], the Streamlit script that
    predicts the toluene adsorption capacity (TSN) of a MOF material from
    five physical features, and the properties of its prediction block.

    Python floats are idealised: a finite float is a real number, next to
    the three special values NaN, +inf and -inf.  Pickled artifacts are
    Python objects of unknown class, so they are duck-typed records of the
    methods the script calls on them.  An exception is an instance of
    [Exception] (the hierarchy every error of numpy, scipy, pandas,
    scikit-learn and joblib lives in) carrying its class and its [str];
    the texts of the libraries' own messages are abbreviated.

    The number inputs and the button of the sidebar are the inputs of a run
    (the record [sidebar]); what a run renders is a list of page elements,
    and the markup strings passed to [st.markdown] are named, not spelled
    out. *)

From Stdlib Require Import Reals Lra String List Bool.
From stdpp Require Import base option gmap strings.
Import ListNotations.
Local Open Scope string_scope.

(** ** Python values, exceptions and arrays *)

Module Py.

Inductive pyfloat : Type :=
| Fin (r : R)
| NaN
| PInf
| NInf.

Inductive exn_class : Type :=
| FileNotFoundError
| KeyError
| IndexError
| AttributeError
| TypeError
| ValueError
| OtherError.

Record exn : Type := mk_exn { exn_cls : exn_class; exn_str : string }.

(** The outcome of evaluating a Python expression: a value, or a raised
    exception. *)
Inductive result (A : Type) : Type :=
| Ok (a : A)
| Raise (e : exn).
Arguments Ok {A} a.
Arguments Raise {A} e.

Definition bind {A B : Type} (r : result A) (k : A -> result B) : result B :=
  match r with
  | Ok a => k a
  | Raise e => Raise e
  end.

Definition is_raise {A : Type} (r : result A) : bool :=
  match r with
  | Ok _ => false
  | Raise _ => true
  end.

(** A cell of a pandas column or of an array-like argument. *)
Inductive cell : Type :=
| Str (s : string)
| Num (v : pyfloat).

(** What scikit-learn accepts ([[x]], a reshaped column) and what it
    returns (float ndarrays). *)
Definition array_like : Type := list (list cell).
Definition ndarray1 : Type := list pyfloat.
Definition ndarray2 : Type := list (list pyfloat).

(** [a[i]] on a one-dimensional array. *)
Definition index1 (a : ndarray1) (i : nat) : result pyfloat :=
  match nth_error a i with
  | Some v => Ok v
  | None => Raise (mk_exn IndexError "index is out of bounds for axis 0")
  end.

(** [a[i, j]] on a two-dimensional array. *)
Definition index2 (a : ndarray2) (i j : nat) : result pyfloat :=
  match nth_error a i with
  | Some row =>
      match nth_error row j with
      | Some v => Ok v
      | None => Raise (mk_exn IndexError "index is out of bounds for axis 1")
      end
  | None => Raise (mk_exn IndexError "index is out of bounds for axis 0")
  end.

(** [d[key]] on a dict. *)
Definition getitem {V : Type} (d : gmap string V) (key : string) : result V :=
  match d !! key with
  | Some v => Ok v
  | None => Raise (mk_exn KeyError ("'" ++ key ++ "'"))
  end.

End Py.
Import Py.

Declare Scope py_scope.
Delimit Scope py_scope with py.
Notation "x <- c1 ;; c2" := (Py.bind c1 (fun x => c2))
  (at level 100, c1 at next level, right associativity) : py_scope.

(** ** Unpickled artifacts

    [joblib.load] returns an object whose class the script never checks: it
    calls [.transform], [.inverse_transform] or [.predict] on it, or passes
    it to scipy as the exponent.  A missing attribute raises
    [AttributeError]; an exponent that is not a number raises [TypeError]. *)

Record pyobject : Type := mk_pyobject {
  obj_transform : option (array_like -> result ndarray2);
  obj_inverse_transform : option (array_like -> result ndarray2);
  obj_predict : option (array_like -> result ndarray1);
  obj_float : option R
}.

Definition transform (o : pyobject) (X : array_like) : result ndarray2 :=
  match obj_transform o with
  | Some f => f X
  | None => Raise (mk_exn AttributeError "object has no attribute 'transform'")
  end.

Definition inverse_transform (o : pyobject) (X : array_like) : result ndarray2 :=
  match obj_inverse_transform o with
  | Some f => f X
  | None => Raise (mk_exn AttributeError "object has no attribute 'inverse_transform'")
  end.

Definition predict (o : pyobject) (X : array_like) : result ndarray1 :=
  match obj_predict o with
  | Some f => f X
  | None => Raise (mk_exn AttributeError "object has no attribute 'predict'")
  end.

(** The three kinds of artifact the script expects to find. *)
Definition QuantileTransformer (fwd inv : array_like -> result ndarray2) : pyobject :=
  mk_pyobject (Some fwd) (Some inv) None None.

Definition StackingRegressor (p : array_like -> result ndarray1) : pyobject :=
  mk_pyobject None None (Some p) None.

Definition pickled_float (l : R) : pyobject :=
  mk_pyobject None None None (Some l).

(** ** scipy

    [scipy.special.boxcox(x, lmbda)], as documented:
    [(x**lmbda - 1) / lmbda] if [lmbda != 0], [log(x)] if [lmbda == 0];
    [nan] if [x < 0]; at [x == 0] the limit value ([-inf] for
    [lmbda <= 0], [-1/lmbda] for [lmbda > 0]).  It never raises. *)
Definition special_boxcox (x lmbda : R) : pyfloat :=
  if Rlt_dec x 0 then NaN
  else if Req_dec_T x 0 then
    (if Rlt_dec 0 lmbda then Fin (- 1 / lmbda) else NInf)
  else if Req_dec_T lmbda 0 then Fin (ln x)
  else Fin ((Rpower x lmbda - 1) / lmbda).

(** [scipy.stats.boxcox(x, lmbda=l)] with an exponent given: the single
    transformation [special.boxcox(x, l)], applied elementwise, with no
    check of the data (the checks [Data must not be constant] and
    [Data must be positive] belong to the path that fits the exponent,
    which a one-element array could not pass).  An exponent that is not a
    number makes the call raise. *)
Definition boxcox (x : list R) (lmbda : pyobject) : result ndarray1 :=
  match obj_float lmbda with
  | Some l => Ok (map (fun xi => special_boxcox xi l) x)
  | None => Raise (mk_exn TypeError "ufunc 'boxcox' not supported for the input types")
  end.

(** ** pandas *)

Definition Series : Type := list cell.

(** A frame built from a dict of columns: the columns in insertion order. *)
Definition DataFrame : Type := list (string * Series).

(** [df[name]]. *)
Fixpoint df_getitem (df : DataFrame) (name : string) : result Series :=
  match df with
  | [] => Raise (mk_exn KeyError ("'" ++ name ++ "'"))
  | (c, col) :: rest => if String.eqb c name then Ok col else df_getitem rest name
  end.

Definition to_numpy (col : Series) : list cell := col.

(** [a.reshape(1, -1)]: one row holding every element of [a]. *)
Definition reshape_1_m1 (a : list cell) : array_like := [a].

(** [df.style.format(precision=n)]: the frame itself, with the number of
    decimals its floats are rendered with. *)
Record Styler : Type := mk_Styler { data : DataFrame; precision : nat }.

Definition style_format (df : DataFrame) (n : nat) : Styler := mk_Styler df n.

(** ** Streamlit: what a run of the script puts on the page *)

(** A piece of an f-string: literal text, or a float rendered with [:.6f]. *)
Inductive fragment : Type :=
| Lit (s : string)
| Fix6 (v : pyfloat).

(** The bodies passed to [st.markdown]. *)
Inductive markup : Type :=
| page_style
| intro
| card_open
| card_close
| text (s : string)
| footer.

(** The elements of a page.  [image path] stands for what
    [st.image(Image.open(path), use_column_width=True)] puts on the page:
    the picture, under the notice that the Streamlit releases which
    deprecate [use_column_width] render with it. *)
Inductive element : Type :=
| set_page_config
| markdown (body : markup)
| title (s : string)
| header (s : string)
| sidebar_header (s : string)
| subheader (s : string)
| dataframe (styled : Styler)
| write (f : list fragment)
| success (f : list fragment)
| error (msg : string)
| warning (msg : string)
| image (path : string).

(** A computation that renders elements and may raise; what was rendered
    before the exception stays on the page. *)
Definition ui (A : Type) : Type := (result A * list element)%type.

Module UI.

Definition ret {A : Type} (a : A) : ui A := (Ok a, []).

Definition bind {A B : Type} (m : ui A) (k : A -> ui B) : ui B :=
  match m with
  | (Ok a, out) => let '(r, out') := k a in (r, (out ++ out')%list)
  | (Raise e, out) => (Raise e, out)
  end.

Definition lift {A : Type} (r : result A) : ui A := (r, []).

Definition st (el : element) : ui unit := (Ok tt, [el]).

(** [try: body except <classes> as e: handler(e)]. *)
Definition try_except (catches : exn -> bool) (body : ui unit)
    (handler : exn -> ui unit) : ui unit :=
  match body with
  | (Ok a, out) => (Ok a, out)
  | (Raise e, out) =>
      if catches e then let '(r, out') := handler e in (r, (out ++ out')%list)
      else (Raise e, out)
  end.

End UI.
Import UI.

Declare Scope ui_scope.
Delimit Scope ui_scope with ui.
Notation "x <- c1 ;; c2" := (UI.bind c1 (fun x => c2))
  (at level 100, c1 at next level, right associativity) : ui_scope.
Notation "c1 ;; c2" := (UI.bind c1 (fun _ => c2))
  (at level 100, right associativity) : ui_scope.

(** [except Exception]: every exception of the model is an [Exception]. *)
Definition Exception (e : exn) : bool := true.

Definition is_FileNotFoundError (e : exn) : bool :=
  match exn_cls e with
  | FileNotFoundError => true
  | _ => false
  end.

(** ** The sidebar (lines 75-81) *)

Record number_input : Type := mk_number_input {
  label : string;
  min_value : R;
  max_value : R;
  value : R
}.

Definition LCD_input : number_input :=
  mk_number_input "LCD (6.03 – 39.11)" 6.03338 39.1106 8.33.
Definition Vf_input : number_input :=
  mk_number_input "Vf (0.257 – 0.918)" 0.2574 0.9182 0.5726.
Definition GSA_input : number_input :=
  mk_number_input "GSA (204.91 – 7061.42)" 204.912 7061.42 701.884.
Definition Density_input : number_input :=
  mk_number_input "Density (0.237 – 2.865)" 0.237838 2.86501 1.51454.
Definition Ktoluene_input : number_input :=
  mk_number_input "Ktoluene (2.7e-5 – 28527.4)" 0.000027383 28527.4 0.013545.

(** A number input hands the script the number the user left in it, which
    the widget keeps between [min_value] and [max_value]. *)
Definition returns (w : number_input) (v : R) : Prop :=
  (min_value w <= v <= max_value w)%R.

(** What the sidebar widgets return in one run of the script. *)
Record sidebar : Type := mk_sidebar {
  LCD : R;
  Vf : R;
  GSA : R;
  Density : R;
  Ktoluene : R;
  predict_btn : bool
}.

Definition from_widgets (s : sidebar) : Prop :=
  returns LCD_input (LCD s) /\ returns Vf_input (Vf s) /\
  returns GSA_input (GSA s) /\ returns Density_input (Density s) /\
  returns Ktoluene_input (Ktoluene s).

(** The sidebar as it first renders: every input at its [value]. *)
Definition defaults (btn : bool) : sidebar :=
  mk_sidebar (value LCD_input) (value Vf_input) (value GSA_input)
    (value Density_input) (value Ktoluene_input) btn.

(** ** Loading the artifacts (lines 59-72) *)

(** The working directory of the process.  A file that is there is known
    by what reading it gives: for a pickle, the object it unpickles to or
    the exception of a file that does not unpickle (truncated, not a
    pickle, a class that is not installed); for an image, a picture or the
    exception of a file that PIL does not open (not an image, a directory,
    no permission). *)
Record directory : Type := mk_directory {
  pickles : gmap string (result pyobject);
  images : gmap string (result unit)
}.

Definition joblib_load (dir : directory) (path : string) : result pyobject :=
  match pickles dir !! path with
  | Some unpickled => unpickled
  | None =>
      Raise (mk_exn FileNotFoundError
               ("[Errno 2] No such file or directory: '" ++ path ++ "'"))
  end.

Definition load_models (dir : directory) : result (gmap string pyobject) :=
  (stack <- joblib_load dir "stacking_model.pkl" ;;
   qt_lcd <- joblib_load dir "qt_lcd.pkl" ;;
   qt_gsa <- joblib_load dir "qt_GSA.pkl" ;;
   qt_density <- joblib_load dir "qt_Density.pkl" ;;
   lambda_kt <- joblib_load dir "lambda_Ktoluene.pkl" ;;
   lambda_vf <- joblib_load dir "lambda_vf.pkl" ;;
   qt_TSN <- joblib_load dir "qt_TSN.pkl" ;;
   Ok (<["stack" := stack]> (<["qt_lcd" := qt_lcd]> (<["qt_gsa" := qt_gsa]>
      (<["qt_density" := qt_density]> (<["lambda_kt" := lambda_kt]>
      (<["lambda_vf" := lambda_vf]> (<["qt_TSN" := qt_TSN]> ∅))))))))%py.

(** [@st.cache_resource]: the first call that returns stores its value for
    the life of the process; later calls return the stored value and do not
    run the function.  A call that raises stores nothing. *)
Definition cache_resource {A : Type} (f : unit -> result A) (cache : option A)
    : result A * option A :=
  match cache with
  | Some v => (Ok v, Some v)
  | None =>
      match f tt with
      | Ok v => (Ok v, Some v)
      | Raise e => (Raise e, None)
      end
  end.

(** ** Prediction logic (lines 83-114) *)

Section Prediction.

Variable models : gmap string pyobject.

Definition lcd_q (LCD : R) : result pyfloat :=
  (qt <- getitem models "qt_lcd" ;;
   T <- transform qt [[Num (Fin LCD)]] ;;
   index2 T 0 0)%py.

Definition gsa_q (GSA : R) : result pyfloat :=
  (qt <- getitem models "qt_gsa" ;;
   T <- transform qt [[Num (Fin GSA)]] ;;
   index2 T 0 0)%py.

Definition density_q (Density : R) : result pyfloat :=
  (qt <- getitem models "qt_density" ;;
   T <- transform qt [[Num (Fin Density)]] ;;
   index2 T 0 0)%py.

Definition vf_bc (Vf : R) : result pyfloat :=
  (lmbda <- getitem models "lambda_vf" ;;
   y <- boxcox [Vf] lmbda ;;
   index1 y 0)%py.

Definition ktol_bc (Ktoluene : R) : result pyfloat :=
  (lmbda <- getitem models "lambda_kt" ;;
   y <- boxcox [Ktoluene] lmbda ;;
   index1 y 0)%py.

Definition df_trans (LCD Vf GSA Density Ktoluene : R)
    (lcd_q vf_bc gsa_q density_q ktol_bc : pyfloat) : DataFrame :=
  [ ("Feature", [Str "LCD"; Str "Vf"; Str "GSA"; Str "Density"; Str "Ktoluene"]);
    ("Original Value",
      [Num (Fin LCD); Num (Fin Vf); Num (Fin GSA); Num (Fin Density);
       Num (Fin Ktoluene)]);
    ("Transformed Value",
      [Num lcd_q; Num vf_bc; Num gsa_q; Num density_q; Num ktol_bc]) ].

(** Lines 98-101: the card with the transformation table. *)
Definition show_transformation (df : DataFrame) : ui unit :=
  (st (markdown card_open) ;;
   st (subheader "🔄 Feature Transformation") ;;
   st (dataframe (style_format df 6)) ;;
   st (markdown card_close))%ui.

Definition X_user (df : DataFrame) : result array_like :=
  (col <- df_getitem df "Transformed Value" ;;
   Ok (reshape_1_m1 (to_numpy col)))%py.

Definition pred_trans (X : array_like) : result pyfloat :=
  (stack <- getitem models "stack" ;;
   y <- predict stack X ;;
   index1 y 0)%py.

Definition pred_orig (pred_trans : pyfloat) : result pyfloat :=
  (qt <- getitem models "qt_TSN" ;;
   T <- inverse_transform qt [[Num pred_trans]] ;;
   index2 T 0 0)%py.

(** Lines 107-111: the card with the prediction result. *)
Definition show_result (pred_trans pred_orig : pyfloat) : ui unit :=
  (st (markdown card_open) ;;
   st (subheader "📈 Prediction Result") ;;
   st (write [Lit "**Transformed TSN**: "; Fix6 pred_trans]) ;;
   st (success [Lit "**Original TSN**: "; Fix6 pred_orig]) ;;
   st (markdown card_close))%ui.

(** The suite of the [try] (lines 86-111). *)
Definition prediction_try (s : sidebar) : ui unit :=
  (a <- lift (lcd_q (LCD s)) ;;
   c <- lift (gsa_q (GSA s)) ;;
   d <- lift (density_q (Density s)) ;;
   b <- lift (vf_bc (Vf s)) ;;
   e <- lift (ktol_bc (Ktoluene s)) ;;
   let df := df_trans (LCD s) (Vf s) (GSA s) (Density s) (Ktoluene s) a b c d e in
   show_transformation df ;;
   X <- lift (X_user df) ;;
   p <- lift (pred_trans X) ;;
   o <- lift (pred_orig p) ;;
   show_result p o)%ui.

(** [except Exception as e: st.error(f"Prediction error: {e}")]. *)
Definition prediction_except (e : exn) : ui unit :=
  st (error ("Prediction error: " ++ exn_str e)).

(** Lines 84-114. *)
Definition prediction_logic (s : sidebar) : ui unit :=
  if predict_btn s
  then try_except Exception (prediction_try s) prediction_except
  else ret tt.

End Prediction.

(** ** SHAP visualisation (lines 116-131) *)

Definition shap_sections : list (string * string * string) :=
  [ ("1. Base Learners SHAP",
     "SHAP summary from base models (RandomForest, XGB, etc.)",
     "summary_plot.png");
    ("2. Meta Learner SHAP",
     "SHAP for the meta-learner (Linear Regression)",
     "SHAP Contribution Analysis for the Meta-Learner in the Second Layer of Stacking Regressor.png");
    ("3. Overall SHAP",
     "Combined SHAP analysis for the whole stacking model",
     "Based on the overall feature contribution analysis of SHAP to the stacking model.png") ].

Definition Image_open (dir : directory) (path : string) : result string :=
  match images dir !! path with
  | Some (Ok _) => Ok path
  | Some (Raise e) => Raise e
  | None =>
      Raise (mk_exn FileNotFoundError
               ("[Errno 2] No such file or directory: '" ++ path ++ "'"))
  end.

Definition shap_section (dir : directory) (sec : string * string * string) : ui unit :=
  let '(ttl, desc, path) := sec in
  (st (subheader ttl) ;;
   st (markdown (text desc)) ;;
   try_except is_FileNotFoundError
     (img <- lift (Image_open dir path) ;; st (image img))
     (fun _ => st (warning ("Image not found: " ++ path))))%ui.

Fixpoint for_each {A : Type} (body : A -> ui unit) (l : list A) : ui unit :=
  match l with
  | [] => ret tt
  | x :: rest => (body x ;; for_each body rest)%ui
  end.

(** ** The script: one run, top to bottom *)

(** The process keeps the [cache_resource] slot of [load_models] from one
    run of the script to the next. *)
Definition process : Type := option (gmap string pyobject).

Definition page_setup : ui unit :=
  (st set_page_config ;;
   st (markdown page_style) ;;
   st (title "📊 Stacking Model Prediction & SHAP Analysis") ;;
   st (markdown intro))%ui.

Definition after_load (dir : directory) (models : gmap string pyobject)
    (s : sidebar) : ui unit :=
  (st (sidebar_header "🔧 Input Features") ;;
   prediction_logic models s ;;
   st (header "🔬 SHAP Feature Contribution") ;;
   for_each (shap_section dir) shap_sections ;;
   st (markdown footer))%ui.

Definition script (dir : directory) (proc : process) (s : sidebar)
    : ui unit * process :=
  let '(loaded, proc') := cache_resource (fun _ => load_models dir) proc in
  ((page_setup ;; models <- lift loaded ;; after_load dir models s)%ui, proc').

(** Streamlit runs the script again at every interaction, in the same
    process: the state one run leaves is the state the next one starts in. *)
Definition page (dir : directory) (proc : process) (s : sidebar) : ui unit :=
  fst (script dir proc s).

Definition rerun (dir : directory) (proc : process) (s : sidebar) : process :=
  snd (script dir proc s).

(** ** Reading a page *)

(** The messages of the error banners on a page. *)
Fixpoint errors (out : list element) : list string :=
  match out with
  | [] => []
  | error msg :: rest => msg :: errors rest
  | _ :: rest => errors rest
  end.

(** The prediction values on a page: what [st.write] and [st.success]
    rendered. *)
Fixpoint results (out : list element) : list (list fragment) :=
  match out with
  | [] => []
  | write f :: rest => f :: results rest
  | success f :: rest => f :: results rest
  | _ :: rest => results rest
  end.

(** The transformation tables on a page. *)
Fixpoint tables (out : list element) : list Styler :=
  match out with
  | [] => []
  | dataframe t :: rest => t :: tables rest
  | _ :: rest => tables rest
  end.

(** The two cards of the prediction block, as page elements. *)
Definition transformation_card (df : DataFrame) : list element :=
  [ markdown card_open; subheader "🔄 Feature Transformation";
    dataframe (style_format df 6); markdown card_close ].

Definition result_card (p o : pyfloat) : list element :=
  [ markdown card_open; subheader "📈 Prediction Result";
    write [Lit "**Transformed TSN**: "; Fix6 p];
    success [Lit "**Original TSN**: "; Fix6 o]; markdown card_close ].

Definition page_header : list element :=
  [ set_page_config; markdown page_style;
    title "📊 Stacking Model Prediction & SHAP Analysis"; markdown intro ].

(** ** The phases of the prediction block

    The states of the pipeline, read off the [try] suite: the five
    normalizers ran (the frame exists), then the predictor and the
    de-normalizer ran (both values exist). *)

Definition transformed (models : gmap string pyobject) (s : sidebar)
    : result DataFrame :=
  (a <- lcd_q models (LCD s) ;;
   c <- gsa_q models (GSA s) ;;
   d <- density_q models (Density s) ;;
   b <- vf_bc models (Vf s) ;;
   e <- ktol_bc models (Ktoluene s) ;;
   Ok (df_trans (LCD s) (Vf s) (GSA s) (Density s) (Ktoluene s) a b c d e))%py.

Definition predicted (models : gmap string pyobject) (df : DataFrame)
    : result (pyfloat * pyfloat) :=
  (X <- X_user df ;;
   p <- pred_trans models X ;;
   o <- pred_orig models p ;;
   Ok (p, o))%py.

(** ** The documented domain (specification, section 6)

    The closed interval the specification documents for each feature. *)

Inductive feature : Type := F_LCD | F_Vf | F_GSA | F_Density | F_Ktoluene.

Definition documented_min (f : feature) : R :=
  match f with
  | F_LCD => 6.03338
  | F_Vf => 0.2574
  | F_GSA => 204.912
  | F_Density => 0.237838
  | F_Ktoluene => 0.000027383
  end.

Definition documented_max (f : feature) : R :=
  match f with
  | F_LCD => 39.1106
  | F_Vf => 0.9182
  | F_GSA => 7061.42
  | F_Density => 2.86501
  | F_Ktoluene => 28527.4
  end.

Definition widget (f : feature) : number_input :=
  match f with
  | F_LCD => LCD_input
  | F_Vf => Vf_input
  | F_GSA => GSA_input
  | F_Density => Density_input
  | F_Ktoluene => Ktoluene_input
  end.

Definition reading (s : sidebar) (f : feature) : R :=
  match f with
  | F_LCD => LCD s
  | F_Vf => Vf s
  | F_GSA => GSA s
  | F_Density => Density s
  | F_Ktoluene => Ktoluene s
  end.

(** The Box-Cox formula of the specification, as a relation between the
    exponent, the input and the output. *)
Definition BoxCox (lmbda x y : R) : Prop :=
  (lmbda <> 0%R -> y = ((Rpower x lmbda - 1) / lmbda)%R) /\
  (lmbda = 0%R -> y = ln x).

(** ** A directory of artifacts to run the script on *)

Module Demo.

(** A quantile transformer fitted on data it maps to itself. *)
Definition same (X : array_like) : result ndarray2 :=
  match X with
  | [[Num v]] => Ok [[v]]
  | _ => Raise (mk_exn ValueError "Expected 2D array with one feature")
  end.

Definition qt : pyobject := QuantileTransformer same same.

(** A regressor that answers with its first feature. *)
Definition first_feature (X : array_like) : result ndarray1 :=
  match X with
  | [Num v :: _] => Ok [v]
  | _ => Raise (mk_exn ValueError "could not convert string to float")
  end.

Definition stack : pyobject := StackingRegressor first_feature.

(** A regressor fitted on six columns. *)
Definition six_columns (X : array_like) : result ndarray1 :=
  Raise (mk_exn ValueError "X has 5 features, but StackingRegressor is expecting 6 features as input.").

Definition half : pyobject := pickled_float (1 / 2).

Definition models_with (stk : pyobject) : gmap string pyobject :=
  <["stack" := stk]> (<["qt_lcd" := qt]> (<["qt_gsa" := qt]>
    (<["qt_density" := qt]> (<["lambda_kt" := half]>
    (<["lambda_vf" := half]> (<["qt_TSN" := qt]> ∅)))))).

Definition models : gmap string pyobject := models_with stack.

Definition all_pickles : gmap string (result pyobject) :=
  <["stacking_model.pkl" := Ok stack]> (<["qt_lcd.pkl" := Ok qt]>
    (<["qt_GSA.pkl" := Ok qt]> (<["qt_Density.pkl" := Ok qt]>
    (<["lambda_Ktoluene.pkl" := Ok half]> (<["lambda_vf.pkl" := Ok half]>
    (<["qt_TSN.pkl" := Ok qt]> ∅)))))).

Definition dir : directory := mk_directory all_pickles ∅.

(** The same directory with the TSN transformer deleted. *)
Definition dir_without_TSN : directory :=
  mk_directory (delete "qt_TSN.pkl" all_pickles) ∅.

(** Box-Cox with exponent 1/2. *)
Definition bc (x : R) : pyfloat := Fin ((Rpower x (1 / 2) - 1) / (1 / 2)).

(** The frame of the default sidebar. *)
Definition df : DataFrame :=
  df_trans 8.33 0.5726 701.884 1.51454 0.013545
    (Fin 8.33) (bc 0.5726) (Fin 701.884) (Fin 1.51454) (bc 0.013545).

Definition broken : gmap string pyobject :=
  models_with (StackingRegressor six_columns).

Definition six_columns_error : exn :=
  mk_exn ValueError
    "X has 5 features, but StackingRegressor is expecting 6 features as input.".

End Demo.

(** ** The artifacts by name *)

(** The keys of the dict that [load_models] returns and the file each one
    is loaded from, in the order of the dict display (lines 63-69). *)
Definition artifact_table : list (string * string) :=
  [ ("stack", "stacking_model.pkl");
    ("qt_lcd", "qt_lcd.pkl");
    ("qt_gsa", "qt_GSA.pkl");
    ("qt_density", "qt_Density.pkl");
    ("lambda_kt", "lambda_Ktoluene.pkl");
    ("lambda_vf", "lambda_vf.pkl");
    ("qt_TSN", "qt_TSN.pkl") ].

Definition artifact_file (key : string) : option string :=
  (list_to_map artifact_table : gmap string string) !! key.

(** The file is in the directory and unpickles to an object. *)
Definition unpickles (dir : directory) (file : string) : Prop :=
  exists o : pyobject, pickles dir !! file = Some (Ok o).

(** The object a file of the directory unpickles to, if it is there and
    does. *)
Definition unpickled (dir : directory) (file : string) : option pyobject :=
  match pickles dir !! file with
  | Some (Ok o) => Some o
  | _ => None
  end.

(** The exception of [open] on a path that does not exist. *)
Definition FileNotFound (path : string) : exn :=
  mk_exn FileNotFoundError ("[Errno 2] No such file or directory: '" ++ path ++ "'").

(** ** Runs while the directory changes

    A history of runs of one process, each with the directory as it was at
    that run. *)
Definition rerun_in (proc : process) (run : directory * sidebar) : process :=
  rerun (fst run) proc (snd run).

Definition process_through (proc : process)
    (history : list (directory * sidebar)) : process :=
  fold_left rerun_in history proc.

(** What one section of the SHAP loop puts on the page when it runs to its
    end: the image, or the warning of the handler. *)
Definition section_elements (dir : directory) (sec : string * string * string)
    : list element :=
  let '(ttl, desc, path) := sec in
  [ subheader ttl; markdown (text desc);
    match images dir !! path with
    | Some (Ok _) => image path
    | _ => warning ("Image not found: " ++ path)
    end ].

(** The image of the section is a file that is there and that PIL refuses
    with [e], which the handler of line 130 does not catch. *)
Definition refused (dir : directory) (sec : string * string * string) (e : exn)
    : Prop :=
  images dir !! snd sec = Some (Raise e) /\ is_FileNotFoundError e = false.

(** The section runs to its end: its image opens, or the handler catches
    what [Image.open] raises. *)
Definition runs_through (dir : directory) (sec : string * string * string) : Prop :=
  forall e : exn,
    images dir !! snd sec = Some (Raise e) -> is_FileNotFoundError e = true.

(** ** What a styled table shows

    A cell of a table styled with [format(precision=n)] shows its float
    written with [n] decimals: a number with [n] decimals nearest to the
    float. *)
Definition decimals (n : nat) (y : R) : Prop :=
  exists k : Z, y = (IZR k / 10 ^ n)%R.

Definition rendering (n : nat) (x y : R) : Prop :=
  decimals n y /\ (Rabs (y - x) <= / 2 * / 10 ^ n)%R.

(** The styled table shows the number [y] in the given column and row. *)
Definition shows (t : Styler) (column : string) (row : nat) (y : R) : Prop :=
  exists (col : Series) (x : R),
    df_getitem (data t) column = Ok col /\
    nth_error col row = Some (Num (Fin x)) /\
    rendering (precision t) x y.

(** ** More directories and artifacts to run the script on *)

Module Cases.

(** A regressor that answers with no row at all. *)
Definition no_rows (X : array_like) : result ndarray1 := Ok [].

Definition models_no_rows : gmap string pyobject :=
  Demo.models_with (StackingRegressor no_rows).

(** A transformer that raises on every input. *)
Definition not_fitted (X : array_like) : result ndarray2 :=
  Raise (mk_exn OtherError "This QuantileTransformer instance is not fitted yet.").

Definition models_unfitted_gsa : gmap string pyobject :=
  <["qt_gsa" := QuantileTransformer not_fitted not_fitted]> Demo.models.

(** The default sidebar with an LCD typed in with seven decimals, and its
    frame under the demo artifacts. *)
Definition fine_LCD : sidebar :=
  mk_sidebar 8.3333333 0.5726 701.884 1.51454 0.013545 true.

Definition fine_df : DataFrame :=
  df_trans 8.3333333 0.5726 701.884 1.51454 0.013545
    (Fin 8.3333333) (Demo.bc 0.5726) (Fin 701.884) (Fin 1.51454)
    (Demo.bc 0.013545).

(** The demo directory without two of its pickles. *)
Definition dir_without_GSA_and_TSN : directory :=
  mk_directory (delete "qt_GSA.pkl" (delete "qt_TSN.pkl" Demo.all_pickles)) ∅.

(** The demo directory with the first of the three images. *)
Definition dir_one_image : directory :=
  mk_directory Demo.all_pickles {["summary_plot.png" := Ok tt]}.

(** The demo directory with a first image that is not an image, and the
    second image in place. *)
Definition not_an_image : exn :=
  mk_exn OtherError "cannot identify image file 'summary_plot.png'".

Definition dir_bad_image : directory :=
  mk_directory Demo.all_pickles
    (<["summary_plot.png" := Raise not_an_image]>
       {["SHAP Contribution Analysis for the Meta-Learner in the Second Layer of Stacking Regressor.png" := Ok tt]}).

(** The demo directory with a truncated pickle of the stacking model, and
    without the TSN transformer. *)
Definition truncated : exn := mk_exn OtherError "Ran out of input".

Definition dir_truncated_stack : directory :=
  mk_directory
    (<["stacking_model.pkl" := Raise truncated]>
       (delete "qt_TSN.pkl" Demo.all_pickles)) ∅.

(** Retrained artifacts: another exponent for Vf. *)
Definition retrained : directory :=
  mk_directory (<["lambda_vf.pkl" := Ok (pickled_float 2)]> Demo.all_pickles) ∅.

End Cases.

(** * Properties *)

(** ** The monad of page computations *)

Lemma show_transformation_eq df :
  show_transformation df = (Ok tt, transformation_card df).
Proof. reflexivity. Qed.

Lemma show_result_eq p o : show_result p o = (Ok tt, result_card p o).
Proof. reflexivity. Qed.

Lemma X_user_df_trans LCD Vf GSA Density Ktoluene a b c d e :
  X_user (df_trans LCD Vf GSA Density Ktoluene a b c d e)
  = Ok [[Num a; Num b; Num c; Num d; Num e]].
Proof. reflexivity. Qed.

(** The five normalizers in the order the script runs them: one goal is left,
    where each has returned; [tac] closes the goals where one has raised. *)
Tactic Notation "run_normalizers" constr(models) constr(s) "by" tactic3(tac) :=
  destruct (lcd_q models (LCD s)) as [a|?]; [|tac];
  destruct (gsa_q models (GSA s)) as [c|?]; [|tac];
  destruct (density_q models (Density s)) as [d|?]; [|tac];
  destruct (vf_bc models (Vf s)) as [b|?]; [|tac];
  destruct (ktol_bc models (Ktoluene s)) as [e|?]; [|tac].

(** The [try] suite, phase by phase. *)
Lemma prediction_try_unfold models s :
  prediction_try models s =
  match transformed models s with
  | Raise e => (Raise e, [])
  | Ok df =>
      match predicted models df with
      | Raise e => (Raise e, transformation_card df)
      | Ok (p, o) => (Ok tt, (transformation_card df ++ result_card p o)%list)
      end
  end.
Proof.
  unfold prediction_try, transformed.
  run_normalizers models s by reflexivity.
  cbn [Py.bind UI.bind lift]. unfold predicted.
  rewrite X_user_df_trans. cbn [Py.bind].
  rewrite show_transformation_eq. cbn [UI.bind lift].
  destruct (pred_trans models _) as [p|?]; [|reflexivity].
  cbn [Py.bind UI.bind]. destruct (pred_orig models p) as [o|?]; reflexivity.
Qed.

(** ** The Box-Cox normalizers *)

Section BoxCoxLemmas.

Local Open Scope R_scope.

Lemma special_boxcox_power x l :
  0 < x -> l <> 0 -> special_boxcox x l = Fin ((Rpower x l - 1) / l).
Proof.
  intros Hx Hl. unfold special_boxcox.
  destruct (Rlt_dec x 0); [lra|].
  destruct (Req_dec_T x 0); [lra|].
  destruct (Req_dec_T l 0); [contradiction|reflexivity].
Qed.

Lemma special_boxcox_log x : 0 < x -> special_boxcox x 0 = Fin (ln x).
Proof.
  intros Hx. unfold special_boxcox.
  destruct (Rlt_dec x 0); [lra|].
  destruct (Req_dec_T x 0); [lra|].
  destruct (Req_dec_T 0 0); [reflexivity|contradiction].
Qed.

Lemma special_boxcox_negative x l : x < 0 -> special_boxcox x l = NaN.
Proof.
  intros Hx. unfold special_boxcox. destruct (Rlt_dec x 0); [reflexivity|lra].
Qed.

Lemma special_boxcox_zero_ninf l : l <= 0 -> special_boxcox 0 l = NInf.
Proof.
  intros Hl. unfold special_boxcox.
  destruct (Rlt_dec 0 0); [lra|].
  destruct (Req_dec_T 0 0); [|contradiction].
  destruct (Rlt_dec 0 l); [lra|reflexivity].
Qed.

Lemma special_boxcox_zero_fin l : 0 < l -> special_boxcox 0 l = Fin (- 1 / l).
Proof.
  intros Hl. unfold special_boxcox.
  destruct (Rlt_dec 0 0); [lra|].
  destruct (Req_dec_T 0 0); [|contradiction].
  destruct (Rlt_dec 0 l); [reflexivity|lra].
Qed.

(** On a positive input the transformation is a finite number that
    satisfies the Box-Cox formula. *)
Lemma special_boxcox_BoxCox x l :
  0 < x -> exists y, special_boxcox x l = Fin y /\ BoxCox l x y.
Proof.
  intros Hx. destruct (Req_dec_T l 0) as [->|Hl].
  - exists (ln x). split; [by apply special_boxcox_log|].
    split; [intros H; contradiction|reflexivity].
  - exists ((Rpower x l - 1) / l). split; [by apply special_boxcox_power|].
    split; [reflexivity|intros H; contradiction].
Qed.

End BoxCoxLemmas.

(** The two power-transformed features reduce to one call of
    [special_boxcox] once the exponent is found in the dict. *)
Lemma vf_bc_eq models o l x :
  models !! "lambda_vf" = Some o -> obj_float o = Some l ->
  vf_bc models x = Ok (special_boxcox x l).
Proof.
  intros Hm Ho. unfold vf_bc, getitem, boxcox. rewrite Hm. cbn [Py.bind].
  rewrite Ho. reflexivity.
Qed.

Lemma ktol_bc_eq models o l x :
  models !! "lambda_kt" = Some o -> obj_float o = Some l ->
  ktol_bc models x = Ok (special_boxcox x l).
Proof.
  intros Hm Ho. unfold ktol_bc, getitem, boxcox. rewrite Hm. cbn [Py.bind].
  rewrite Ho. reflexivity.
Qed.

(** C1. For every strictly positive input [x], the Box-Cox normalizer used
    for Vf and for Ktoluene returns the finite number [y] with
    [y = (x^lmbda - 1) / lmbda] when the fitted exponent [lmbda] is not 0
    and [y = ln x] when it is 0. *)
Theorem boxcox_normalizer_formula (models : gmap string pyobject)
    (o_vf o_kt : pyobject) (l_vf l_kt x : R) :
  models !! "lambda_vf" = Some o_vf -> obj_float o_vf = Some l_vf ->
  models !! "lambda_kt" = Some o_kt -> obj_float o_kt = Some l_kt ->
  (0 < x)%R ->
  exists y_vf y_kt : R,
    (vf_bc models x = Ok (Fin y_vf) /\ BoxCox l_vf x y_vf) /\
    (ktol_bc models x = Ok (Fin y_kt) /\ BoxCox l_kt x y_kt).
Proof.
  intros Hvf Hlvf Hkt Hlkt Hx.
  destruct (special_boxcox_BoxCox x l_vf Hx) as (y_vf & Ey_vf & Hbc_vf).
  destruct (special_boxcox_BoxCox x l_kt Hx) as (y_kt & Ey_kt & Hbc_kt).
  exists y_vf, y_kt. split; (split; [|assumption]).
  - rewrite (vf_bc_eq models o_vf l_vf x Hvf Hlvf). by rewrite Ey_vf.
  - rewrite (ktol_bc_eq models o_kt l_kt x Hkt Hlkt). by rewrite Ey_kt.
Qed.

Lemma boxcox_normalizer_formula_witness :
  exists y_vf y_kt : R,
    (vf_bc Demo.models 0.5726 = Ok (Fin y_vf) /\ BoxCox (1 / 2) 0.5726 y_vf) /\
    (ktol_bc Demo.models 0.5726 = Ok (Fin y_kt) /\ BoxCox (1 / 2) 0.5726 y_kt).
Proof.
  apply (boxcox_normalizer_formula Demo.models Demo.half Demo.half);
    [reflexivity|reflexivity|reflexivity|reflexivity|lra].
Defined.

(** ** Running the prediction block on the demo artifacts *)

Lemma demo_lcd_q stk x : lcd_q (Demo.models_with stk) x = Ok (Fin x).
Proof. reflexivity. Qed.

Lemma demo_gsa_q stk x : gsa_q (Demo.models_with stk) x = Ok (Fin x).
Proof. reflexivity. Qed.

Lemma demo_density_q stk x : density_q (Demo.models_with stk) x = Ok (Fin x).
Proof. reflexivity. Qed.

Lemma demo_vf_bc stk x : (0 < x)%R -> vf_bc (Demo.models_with stk) x = Ok (Demo.bc x).
Proof.
  intros Hx. rewrite (vf_bc_eq _ Demo.half (1 / 2) x); [|reflexivity..].
  rewrite special_boxcox_power; [reflexivity|lra..].
Qed.

Lemma demo_ktol_bc stk x : (0 < x)%R -> ktol_bc (Demo.models_with stk) x = Ok (Demo.bc x).
Proof.
  intros Hx. rewrite (ktol_bc_eq _ Demo.half (1 / 2) x); [|reflexivity..].
  rewrite special_boxcox_power; [reflexivity|lra..].
Qed.

Lemma demo_transformed stk btn :
  transformed (Demo.models_with stk) (defaults btn) = Ok Demo.df.
Proof.
  unfold transformed. rewrite demo_lcd_q, demo_gsa_q, demo_density_q.
  cbn [Py.bind]. rewrite demo_vf_bc by (cbn; lra). cbn [Py.bind].
  rewrite demo_ktol_bc by (cbn; lra). reflexivity.
Qed.

Lemma demo_predicted : predicted Demo.models Demo.df = Ok (Fin 8.33, Fin 8.33).
Proof. reflexivity. Qed.

Lemma demo_predicted_broken : predicted Demo.broken Demo.df = Raise Demo.six_columns_error.
Proof. reflexivity. Qed.

Lemma demo_prediction_try :
  prediction_try Demo.models (defaults true)
  = (Ok tt, (transformation_card Demo.df ++ result_card (Fin 8.33) (Fin 8.33))%list).
Proof.
  rewrite prediction_try_unfold. unfold Demo.models.
  rewrite demo_transformed. fold Demo.models. by rewrite demo_predicted.
Qed.

Lemma demo_prediction_try_broken :
  prediction_try Demo.broken (defaults true)
  = (Raise Demo.six_columns_error, transformation_card Demo.df).
Proof.
  rewrite prediction_try_unfold. unfold Demo.broken.
  rewrite demo_transformed. fold Demo.broken. by rewrite demo_predicted_broken.
Qed.

(** ** The prediction block *)

Lemma errors_app out1 out2 : errors (out1 ++ out2) = (errors out1 ++ errors out2)%list.
Proof.
  induction out1 as [|el out1 IH]; [reflexivity|].
  destruct el; cbn [errors app]; rewrite ?IH; reflexivity.
Qed.

Lemma results_app out1 out2 :
  results (out1 ++ out2) = (results out1 ++ results out2)%list.
Proof.
  induction out1 as [|el out1 IH]; [reflexivity|].
  destruct el; cbn [results app]; rewrite ?IH; reflexivity.
Qed.

Lemma tables_app out1 out2 : tables (out1 ++ out2) = (tables out1 ++ tables out2)%list.
Proof.
  induction out1 as [|el out1 IH]; [reflexivity|].
  destruct el; cbn [tables app]; rewrite ?IH; reflexivity.
Qed.

Lemma transformed_ok models s a b c d e :
  lcd_q models (LCD s) = Ok a -> vf_bc models (Vf s) = Ok b ->
  gsa_q models (GSA s) = Ok c -> density_q models (Density s) = Ok d ->
  ktol_bc models (Ktoluene s) = Ok e ->
  transformed models s
  = Ok (df_trans (LCD s) (Vf s) (GSA s) (Density s) (Ktoluene s) a b c d e).
Proof.
  intros Ha Hb Hc Hd He. unfold transformed.
  rewrite Ha, Hc, Hd, Hb, He. reflexivity.
Qed.

Lemma transformed_inv models s df :
  transformed models s = Ok df ->
  exists a b c d e,
    lcd_q models (LCD s) = Ok a /\ vf_bc models (Vf s) = Ok b /\
    gsa_q models (GSA s) = Ok c /\ density_q models (Density s) = Ok d /\
    ktol_bc models (Ktoluene s) = Ok e /\
    df = df_trans (LCD s) (Vf s) (GSA s) (Density s) (Ktoluene s) a b c d e.
Proof.
  unfold transformed.
  run_normalizers models s by discriminate.
  cbn [Py.bind]. intros [= <-]. by exists a, b, c, d, e.
Qed.

(** What the [try] suite renders holds no error banner: the banner is the
    handler's. *)
Lemma prediction_try_no_banner models s :
  errors (snd (prediction_try models s)) = [].
Proof.
  rewrite prediction_try_unfold.
  destruct (transformed models s) as [df|?]; [|reflexivity].
  destruct (predicted models df) as [[p o]|?]; reflexivity.
Qed.

(** A suite that raises has rendered no prediction value. *)
Lemma prediction_try_raise_no_result models s e shown :
  prediction_try models s = (Raise e, shown) -> results shown = [].
Proof.
  rewrite prediction_try_unfold.
  destruct (transformed models s) as [df|?]; [|by intros [= _ <-]].
  destruct (predicted models df) as [[p o]|?]; [discriminate|by intros [= _ <-]].
Qed.

Lemma prediction_logic_raise models s e shown :
  predict_btn s = true -> prediction_try models s = (Raise e, shown) ->
  prediction_logic models s
  = (Ok tt, (shown ++ [error ("Prediction error: " ++ exn_str e)])%list).
Proof.
  intros Hbtn Htry. unfold prediction_logic. rewrite Hbtn, Htry. reflexivity.
Qed.

Lemma prediction_logic_ok models s shown :
  predict_btn s = true -> prediction_try models s = (Ok tt, shown) ->
  prediction_logic models s = (Ok tt, shown).
Proof.
  intros Hbtn Htry. unfold prediction_logic. rewrite Hbtn, Htry. reflexivity.
Qed.

Lemma prediction_logic_returns models s : fst (prediction_logic models s) = Ok tt.
Proof.
  unfold prediction_logic. destruct (predict_btn s); [|reflexivity].
  destruct (prediction_try models s) as [[[]|e] shown]; reflexivity.
Qed.

(** The call of line 104, through the function of the regressor itself. *)
Lemma pred_trans_through models o f X :
  models !! "stack" = Some o -> obj_predict o = Some f ->
  pred_trans models X = (y <- f X ;; index1 y 0)%py.
Proof.
  intros Hm Ho. unfold pred_trans, getitem, predict.
  rewrite Hm. cbn [Py.bind]. by rewrite Ho.
Qed.

(** C2. For every prediction request, the feature vector handed to the
    ensemble predictor holds the five normalized scalars in exactly the
    order LCD, Vf, GSA, Density, Ktoluene: once the five normalizers have
    returned, what the page shows after the table is decided by the answer
    of the regressor's own [predict] on that very vector, whatever function
    that is. *)
Theorem feature_vector_order (models : gmap string pyobject) (s : sidebar)
    (a b c d e : pyfloat) (o : pyobject) (f : array_like -> result ndarray1) :
  predict_btn s = true ->
  lcd_q models (LCD s) = Ok a -> vf_bc models (Vf s) = Ok b ->
  gsa_q models (GSA s) = Ok c -> density_q models (Density s) = Ok d ->
  ktol_bc models (Ktoluene s) = Ok e ->
  models !! "stack" = Some o -> obj_predict o = Some f ->
  X_user (df_trans (LCD s) (Vf s) (GSA s) (Density s) (Ktoluene s) a b c d e)
  = Ok [[Num a; Num b; Num c; Num d; Num e]] /\
  prediction_logic models s
  = (Ok tt,
     (transformation_card
        (df_trans (LCD s) (Vf s) (GSA s) (Density s) (Ktoluene s) a b c d e)
      ++ match (y <- f [[Num a; Num b; Num c; Num d; Num e]] ;; index1 y 0)%py with
         | Ok p =>
             match pred_orig models p with
             | Ok v => result_card p v
             | Raise ex => [error ("Prediction error: " ++ exn_str ex)]
             end
         | Raise ex => [error ("Prediction error: " ++ exn_str ex)]
         end)%list).
Proof.
  intros Hbtn Ha Hb Hc Hd He Hm Ho. split; [apply X_user_df_trans|].
  unfold prediction_logic. rewrite Hbtn, prediction_try_unfold.
  rewrite (transformed_ok models s a b c d e Ha Hb Hc Hd He).
  unfold predicted. rewrite X_user_df_trans. cbn [Py.bind].
  rewrite (pred_trans_through models o f _ Hm Ho).
  destruct (f _) as [y|?]; cbn [Py.bind]; [|reflexivity].
  destruct (index1 y 0) as [p|?]; cbn [Py.bind]; [|reflexivity].
  by destruct (pred_orig models p).
Qed.

Lemma feature_vector_order_witness :
  X_user Demo.df
  = Ok [[Num (Fin 8.33); Num (Demo.bc 0.5726); Num (Fin 701.884);
         Num (Fin 1.51454); Num (Demo.bc 0.013545)]] /\
  prediction_logic Demo.models (defaults true)
  = (Ok tt,
     (transformation_card Demo.df
      ++ match (y <- Demo.first_feature
                       [[Num (Fin 8.33); Num (Demo.bc 0.5726); Num (Fin 701.884);
                         Num (Fin 1.51454); Num (Demo.bc 0.013545)]] ;;
                index1 y 0)%py with
         | Ok p =>
             match pred_orig Demo.models p with
             | Ok v => result_card p v
             | Raise ex => [error ("Prediction error: " ++ exn_str ex)]
             end
         | Raise ex => [error ("Prediction error: " ++ exn_str ex)]
         end)%list).
Proof.
  apply (feature_vector_order Demo.models (defaults true) _ _ _ _ _
           Demo.stack Demo.first_feature).
  - reflexivity.
  - apply demo_lcd_q.
  - apply demo_vf_bc. cbn. lra.
  - apply demo_gsa_q.
  - apply demo_density_q.
  - apply demo_ktol_bc. cbn. lra.
  - reflexivity.
  - reflexivity.
Defined.

Lemma bind_ok {A B : Type} (a : A) (out : list element) (k : A -> ui B) :
  UI.bind (Ok a, out) k = (fst (k a), (out ++ snd (k a))%list).
Proof. unfold UI.bind. by destruct (k a). Qed.

(** With the artifacts loaded, a run goes past the prediction block,
    whatever the block did: the page holds what the block rendered and then
    the SHAP header, and what ends the run is what the SHAP loop and the
    footer do. *)
Lemma page_after_block dir models s :
  page dir (Some models) s
  = (fst (for_each (shap_section dir) shap_sections ;; st (markdown footer))%ui,
     (page_header
      ++ sidebar_header "🔧 Input Features"
      :: snd (prediction_logic models s)
      ++ header "🔬 SHAP Feature Contribution"
      :: snd (for_each (shap_section dir) shap_sections ;; st (markdown footer))%ui)%list).
Proof.
  unfold page, script, cache_resource. cbn [fst].
  unfold page_setup, st, lift. rewrite !bind_ok. cbn [fst snd]. unfold after_load.
  pose proof (prediction_logic_returns models s) as Hblock.
  destruct (prediction_logic models s) as [r1 out1]. cbn [fst] in Hblock. subst r1.
  destruct (for_each (shap_section dir) shap_sections ;; st (markdown footer))%ui
    as [r2 out2] eqn:Htail.
  unfold st in *. rewrite !bind_ok. cbn [fst snd]. rewrite Htail. reflexivity.
Qed.

(** C3. For every prediction request, whatever the artifacts are and
    whatever they raise, the prediction block returns normally: an
    exception raised by the transform, assembly, prediction or
    de-normalization step is caught by the handler and becomes one error
    banner, [Prediction error: ] followed by the exception's text, after
    what the page already showed; nothing is raised past the block, and the
    run of the script goes on with what follows it: the page holds what the
    block rendered and then the SHAP header. *)
Theorem errors_caught_at_boundary (models : gmap string pyobject) (s : sidebar) :
  fst (prediction_logic models s) = Ok tt /\
  (forall dir : directory,
     exists (r : result unit) (rest : list element),
       page dir (Some models) s
       = (r, (page_header
              ++ sidebar_header "🔧 Input Features"
              :: snd (prediction_logic models s)
              ++ header "🔬 SHAP Feature Contribution" :: rest)%list)) /\
  (length (errors (snd (prediction_logic models s))) <= 1)%nat /\
  forall e shown,
    predict_btn s = true -> prediction_try models s = (Raise e, shown) ->
    snd (prediction_logic models s)
    = (shown ++ [error ("Prediction error: " ++ exn_str e)])%list /\
    errors (snd (prediction_logic models s)) = ["Prediction error: " ++ exn_str e].
Proof.
  split; [apply prediction_logic_returns|].
  split; [intros dir; eexists _, _; apply page_after_block|]. split.
  - pose proof (prediction_try_no_banner models s) as Hno.
    unfold prediction_logic. destruct (predict_btn s); [|cbn; lia].
    destruct (prediction_try models s) as [[[]|e] shown]; cbn in Hno |- *.
    + rewrite Hno. cbn. lia.
    + rewrite errors_app, Hno. cbn. lia.
  - intros e shown Hbtn Htry.
    rewrite (prediction_logic_raise models s e shown Hbtn Htry). cbn [snd].
    split; [reflexivity|].
    pose proof (prediction_try_no_banner models s) as Hno.
    rewrite Htry in Hno. cbn [snd] in Hno. by rewrite errors_app, Hno.
Qed.

Lemma errors_caught_at_boundary_witness :
  fst (prediction_logic Demo.broken (defaults true)) = Ok tt /\
  snd (prediction_logic Demo.broken (defaults true))
  = (transformation_card Demo.df
     ++ [error ("Prediction error: " ++ exn_str Demo.six_columns_error)])%list.
Proof.
  destruct (errors_caught_at_boundary Demo.broken (defaults true))
    as (Hret & _ & _ & Hcaught).
  split; [exact Hret|].
  exact (proj1 (Hcaught Demo.six_columns_error (transformation_card Demo.df)
                  eq_refl demo_prediction_try_broken)).
Defined.

(** C4. For every prediction request in which a step fails (a normalizer,
    the assembly of the vector, the predictor or the de-normalizer raises),
    the block ends with the error banner of that exception and the page
    shows no prediction value; and a page that shows an error banner never
    shows a prediction value. *)
Theorem failed_request_shows_no_result (models : gmap string pyobject)
    (s : sidebar) :
  predict_btn s = true ->
  (forall e shown,
     prediction_try models s = (Raise e, shown) ->
     prediction_logic models s
     = (Ok tt, (shown ++ [error ("Prediction error: " ++ exn_str e)])%list) /\
     results (shown ++ [error ("Prediction error: " ++ exn_str e)]) = []) /\
  (errors (snd (prediction_logic models s)) <> [] ->
   results (snd (prediction_logic models s)) = []).
Proof.
  intros Hbtn. split.
  - intros e shown Htry. split; [by apply prediction_logic_raise|].
    rewrite results_app, (prediction_try_raise_no_result models s e shown Htry).
    reflexivity.
  - destruct (prediction_try models s) as [[[]|e] shown] eqn:Htry.
    + rewrite (prediction_logic_ok models s shown Hbtn Htry). cbn [snd].
      pose proof (prediction_try_no_banner models s) as Hno.
      rewrite Htry in Hno. cbn [snd] in Hno. by rewrite Hno.
    + intros _. rewrite (prediction_logic_raise models s e shown Hbtn Htry).
      cbn [snd].
      rewrite results_app, (prediction_try_raise_no_result models s e shown Htry).
      reflexivity.
Qed.

Lemma failed_request_shows_no_result_witness :
  prediction_logic Demo.broken (defaults true)
  = (Ok tt,
     (transformation_card Demo.df
      ++ [error ("Prediction error: " ++ exn_str Demo.six_columns_error)])%list) /\
  results (transformation_card Demo.df
           ++ [error ("Prediction error: " ++ exn_str Demo.six_columns_error)]) = [].
Proof.
  exact (proj1 (failed_request_shows_no_result Demo.broken (defaults true) eq_refl)
           Demo.six_columns_error (transformation_card Demo.df)
           demo_prediction_try_broken).
Defined.

(** C7. For every prediction request that reaches the Transformed state
    (the five normalizers returned), the page shows the table of the
    original and the transformed value of each of the five features (the
    frame itself, styled with six decimals), whether the prediction that
    follows succeeds or fails. *)
Theorem table_shown_once_transformed (models : gmap string pyobject)
    (s : sidebar) (a b c d e : pyfloat) :
  predict_btn s = true ->
  lcd_q models (LCD s) = Ok a -> vf_bc models (Vf s) = Ok b ->
  gsa_q models (GSA s) = Ok c -> density_q models (Density s) = Ok d ->
  ktol_bc models (Ktoluene s) = Ok e ->
  tables (snd (prediction_logic models s))
  = [mk_Styler
       [ ("Feature", [Str "LCD"; Str "Vf"; Str "GSA"; Str "Density"; Str "Ktoluene"]);
         ("Original Value",
           [Num (Fin (LCD s)); Num (Fin (Vf s)); Num (Fin (GSA s));
            Num (Fin (Density s)); Num (Fin (Ktoluene s))]);
         ("Transformed Value", [Num a; Num b; Num c; Num d; Num e]) ] 6].
Proof.
  intros Hbtn Ha Hb Hc Hd He.
  pose proof (transformed_ok models s a b c d e Ha Hb Hc Hd He) as Htr.
  pose proof (prediction_try_unfold models s) as Htry. rewrite Htr in Htry.
  destruct (predicted models _) as [[p o]|ex].
  - by rewrite (prediction_logic_ok models s _ Hbtn Htry).
  - by rewrite (prediction_logic_raise models s _ _ Hbtn Htry).
Qed.

Lemma table_shown_once_transformed_witness :
  tables (snd (prediction_logic Demo.broken (defaults true)))
  = [mk_Styler
       [ ("Feature", [Str "LCD"; Str "Vf"; Str "GSA"; Str "Density"; Str "Ktoluene"]);
         ("Original Value",
           [Num (Fin 8.33); Num (Fin 0.5726); Num (Fin 701.884);
            Num (Fin 1.51454); Num (Fin 0.013545)]);
         ("Transformed Value",
           [Num (Fin 8.33); Num (Demo.bc 0.5726); Num (Fin 701.884);
            Num (Fin 1.51454); Num (Demo.bc 0.013545)]) ] 6] /\
  errors (snd (prediction_logic Demo.broken (defaults true))) <> [].
Proof.
  split.
  - apply (table_shown_once_transformed Demo.broken (defaults true)).
    + reflexivity.
    + apply demo_lcd_q.
    + apply demo_vf_bc. cbn. lra.
    + apply demo_gsa_q.
    + apply demo_density_q.
    + apply demo_ktol_bc. cbn. lra.
  - rewrite (prediction_logic_raise Demo.broken (defaults true) _ _ eq_refl
               demo_prediction_try_broken).
    cbn [snd]. rewrite errors_app. cbn. discriminate.
Defined.

(** C9, as the code has it.  For every successful prediction request, the
    vector the ensemble predictor consumes is the [Transformed Value]
    column of the frame that the table on the page renders, its five
    values in the order of the rows: the transformed TSN on the page is
    row 0 of the answer of the regressor's own [predict] on exactly that
    column.  The table is that frame styled with six decimals. *)
Theorem model_consumes_displayed_column (models : gmap string pyobject)
    (s : sidebar) (shown : list element) (o : pyobject)
    (f : array_like -> result ndarray1) :
  prediction_try models s = (Ok tt, shown) ->
  models !! "stack" = Some o -> obj_predict o = Some f ->
  exists (df : DataFrame) (col : Series) (y : ndarray1) (p v : pyfloat),
    tables shown = [mk_Styler df 6] /\
    df_getitem df "Transformed Value" = Ok col /\
    length col = 5%nat /\
    f [col] = Ok y /\ index1 y 0 = Ok p /\
    pred_orig models p = Ok v /\
    results shown
    = [[Lit "**Transformed TSN**: "; Fix6 p]; [Lit "**Original TSN**: "; Fix6 v]].
Proof.
  rewrite prediction_try_unfold. intros Htry Hm Ho.
  destruct (transformed models s) as [df|?] eqn:Htr; [|discriminate].
  destruct (predicted models df) as [[p v]|?] eqn:Hpr; [|discriminate].
  injection Htry as <-.
  destruct (transformed_inv models s df Htr)
    as (a & b & c & d & e & _ & _ & _ & _ & _ & ->).
  unfold predicted in Hpr. rewrite X_user_df_trans in Hpr. cbn [Py.bind] in Hpr.
  rewrite (pred_trans_through models o f _ Hm Ho) in Hpr.
  destruct (f _) as [y|?] eqn:Hy; [|discriminate]. cbn [Py.bind] in Hpr.
  destruct (index1 y 0) as [p'|?] eqn:Hp; [|discriminate]. cbn [Py.bind] in Hpr.
  destruct (pred_orig models p') as [v'|?] eqn:Hv; [|discriminate].
  injection Hpr as -> ->.
  eexists _, [Num a; Num b; Num c; Num d; Num e], y, p, v.
  repeat split; try reflexivity; assumption.
Qed.

Lemma model_consumes_displayed_column_witness :
  exists (df : DataFrame) (col : Series) (y : ndarray1) (p v : pyfloat),
    tables (transformation_card Demo.df ++ result_card (Fin 8.33) (Fin 8.33))
    = [mk_Styler df 6] /\
    df_getitem df "Transformed Value" = Ok col /\
    length col = 5%nat /\
    Demo.first_feature [col] = Ok y /\ index1 y 0 = Ok p /\
    pred_orig Demo.models p = Ok v /\
    results (transformation_card Demo.df ++ result_card (Fin 8.33) (Fin 8.33))
    = [[Lit "**Transformed TSN**: "; Fix6 p]; [Lit "**Original TSN**: "; Fix6 v]].
Proof.
  exact (model_consumes_displayed_column Demo.models (defaults true) _
           Demo.stack Demo.first_feature demo_prediction_try eq_refl eq_refl).
Defined.

Lemma X_user_column LCD Vf GSA Density Ktoluene a b c d e :
  df_getitem (df_trans LCD Vf GSA Density Ktoluene a b c d e) "Transformed Value"
  = Ok [Num a; Num b; Num c; Num d; Num e].
Proof. reflexivity. Qed.

Lemma not_six_decimals : ~ decimals 6 8.3333333.
Proof.
  intros [k Hk]. cbn [pow] in Hk.
  assert (H10 : IZR (10 * k) = IZR 83333333).
  { rewrite mult_IZR. lra. }
  apply eq_IZR in H10. lia.
Qed.

Lemma demo_prediction_try_fine :
  prediction_try Demo.models Cases.fine_LCD
  = (Ok tt,
     (transformation_card Cases.fine_df
      ++ result_card (Fin 8.3333333) (Fin 8.3333333))%list).
Proof.
  rewrite prediction_try_unfold.
  assert (Htr : transformed Demo.models Cases.fine_LCD = Ok Cases.fine_df).
  { apply (transformed_ok Demo.models Cases.fine_LCD).
    - apply demo_lcd_q.
    - apply demo_vf_bc. cbn. lra.
    - apply demo_gsa_q.
    - apply demo_density_q.
    - apply demo_ktol_bc. cbn. lra. }
  rewrite Htr. reflexivity.
Qed.

(** C9, as the claim has it, fails: with an LCD of 8.3333333 and a
    transformer that leaves it as it is, the request succeeds, the
    regressor is handed 8.3333333 (it answers with its first feature, and
    8.3333333 is the transformed TSN of the page), but the first row of the
    table's [Transformed Value] column shows 8.333333 and does not show
    8.3333333: what is shown is the value fed, rounded to six decimals. *)
Lemma displayed_value_is_rounded :
  from_widgets Cases.fine_LCD /\
  prediction_try Demo.models Cases.fine_LCD
  = (Ok tt,
     (transformation_card Cases.fine_df
      ++ result_card (Fin 8.3333333) (Fin 8.3333333))%list) /\
  tables (transformation_card Cases.fine_df
          ++ result_card (Fin 8.3333333) (Fin 8.3333333))
  = [mk_Styler Cases.fine_df 6] /\
  X_user Cases.fine_df
  = Ok [[Num (Fin 8.3333333); Num (Demo.bc 0.5726); Num (Fin 701.884);
         Num (Fin 1.51454); Num (Demo.bc 0.013545)]] /\
  Demo.first_feature
    [[Num (Fin 8.3333333); Num (Demo.bc 0.5726); Num (Fin 701.884);
      Num (Fin 1.51454); Num (Demo.bc 0.013545)]]
  = Ok [Fin 8.3333333] /\
  shows (mk_Styler Cases.fine_df 6) "Transformed Value" 0 8.333333 /\
  ~ shows (mk_Styler Cases.fine_df 6) "Transformed Value" 0 8.3333333.
Proof.
  split; [unfold from_widgets, returns; cbn; lra|].
  split; [exact demo_prediction_try_fine|].
  split; [reflexivity|]. split; [reflexivity|]. split; [reflexivity|]. split.
  - exists [Num (Fin 8.3333333); Num (Demo.bc 0.5726); Num (Fin 701.884);
            Num (Fin 1.51454); Num (Demo.bc 0.013545)], 8.3333333%R.
    split; [reflexivity|]. split; [reflexivity|]. split.
    + exists 8333333%Z. cbn [precision pow]. lra.
    + cbn [precision pow]. apply Rabs_le. lra.
  - intros (col & x & Hcol & Hrow & Hdec & _).
    cbn [data] in Hcol. unfold Cases.fine_df in Hcol.
    rewrite X_user_column in Hcol.
    injection Hcol as <-. cbn [nth_error] in Hrow. injection Hrow as <-.
    exact (not_six_decimals Hdec).
Qed.

(** ** Loading, and running the script again *)

(** Without [qt_TSN.pkl] the dict is never built: some [joblib.load], the
    last one at the latest, raises. *)
Lemma load_models_without_TSN dir :
  pickles dir !! "qt_TSN.pkl" = None -> exists e, load_models dir = Raise e.
Proof.
  intros Hnone. unfold load_models.
  repeat
    match goal with
    | |- context [Py.bind (joblib_load dir ?path) _] =>
        destruct (joblib_load dir path) as [?|e] eqn:?;
          [cbn [Py.bind]|by exists e]
    end.
  unfold joblib_load in *.
  match goal with
  | H : context [pickles dir !! "qt_TSN.pkl"] |- _ => rewrite Hnone in H; discriminate H
  end.
Qed.

Lemma script_load_raises dir s e :
  load_models dir = Raise e ->
  script dir None s = ((Raise e, page_header), None).
Proof. intros Hload. unfold script, cache_resource. rewrite Hload. reflexivity. Qed.

Lemma rerun_eq dir proc s :
  rerun dir proc s = snd (cache_resource (fun _ => load_models dir) proc).
Proof.
  unfold rerun, script.
  by destruct (cache_resource (fun _ => load_models dir) proc).
Qed.

(** C5, as the code has it.  If the TSN inverse-transform artifact is absent
    when the process first runs the script, [load_models] raises at line 72,
    before the sidebar and before any step of the pipeline: the exception
    leaves the script uncaught, nothing is cached, and the page holds the
    header only, with no table, no error banner and no predicted value. *)
Theorem missing_TSN_artifact_fails_at_load (dir : directory) (s : sidebar) :
  pickles dir !! "qt_TSN.pkl" = None ->
  exists e : exn,
    load_models dir = Raise e /\
    script dir None s = ((Raise e, page_header), None) /\
    tables page_header = [] /\ errors page_header = [] /\ results page_header = [].
Proof.
  intros Hnone. destruct (load_models_without_TSN dir Hnone) as (e & Hload).
  exists e. split; [exact Hload|]. split; [by apply script_load_raises|].
  by repeat split.
Qed.

Lemma missing_TSN_artifact_fails_at_load_witness :
  exists e : exn,
    load_models Demo.dir_without_TSN = Raise e /\
    script Demo.dir_without_TSN None (defaults true) = ((Raise e, page_header), None) /\
    tables page_header = [] /\ errors page_header = [] /\ results page_header = [].
Proof.
  apply (missing_TSN_artifact_fails_at_load Demo.dir_without_TSN (defaults true)).
  reflexivity.
Defined.

(** C5, as the claim has it, fails: with every artifact in place but
    [qt_TSN.pkl], and the button pressed, the run does not end in an error
    banner after the table (a failure at the de-normalization step): it
    ends at the load, with an uncaught exception, no table and no banner. *)
Lemma missing_TSN_artifact_not_at_denormalization :
  pickles Demo.dir_without_TSN !! "qt_TSN.pkl" = None /\
  page Demo.dir_without_TSN None (defaults true)
  = (Raise (mk_exn FileNotFoundError
              "[Errno 2] No such file or directory: 'qt_TSN.pkl'"), page_header) /\
  tables (snd (page Demo.dir_without_TSN None (defaults true))) = [] /\
  errors (snd (page Demo.dir_without_TSN None (defaults true))) = [].
Proof. by repeat split. Qed.

(** C6, as the code has it.  For every input [x <= 0] the Box-Cox
    normalizer raises nothing: it returns NaN when [x < 0], and at [x = 0]
    it returns -inf when the exponent is at most 0 and [-1/lmbda] when it
    is positive. *)
Theorem boxcox_nonpositive_no_error (models : gmap string pyobject)
    (o_vf o_kt : pyobject) (l_vf l_kt x : R) :
  models !! "lambda_vf" = Some o_vf -> obj_float o_vf = Some l_vf ->
  models !! "lambda_kt" = Some o_kt -> obj_float o_kt = Some l_kt ->
  (x <= 0)%R ->
  exists v_vf v_kt : pyfloat,
    vf_bc models x = Ok v_vf /\ ktol_bc models x = Ok v_kt /\
    ((x < 0)%R -> v_vf = NaN /\ v_kt = NaN) /\
    (x = 0%R ->
     ((l_vf <= 0)%R -> v_vf = NInf) /\ ((0 < l_vf)%R -> v_vf = Fin (- 1 / l_vf)) /\
     ((l_kt <= 0)%R -> v_kt = NInf) /\ ((0 < l_kt)%R -> v_kt = Fin (- 1 / l_kt))).
Proof.
  intros Hvf Hlvf Hkt Hlkt Hx.
  exists (special_boxcox x l_vf), (special_boxcox x l_kt).
  split; [by apply (vf_bc_eq models o_vf)|].
  split; [by apply (ktol_bc_eq models o_kt)|]. split.
  - intros Hneg. by rewrite !special_boxcox_negative.
  - intros ->. repeat split; intros Hl;
      by (apply special_boxcox_zero_ninf || apply special_boxcox_zero_fin).
Qed.

Lemma boxcox_nonpositive_no_error_witness :
  exists v_vf v_kt : pyfloat,
    vf_bc Demo.models (-1) = Ok v_vf /\ ktol_bc Demo.models (-1) = Ok v_kt /\
    ((-1 < 0)%R -> v_vf = NaN /\ v_kt = NaN) /\
    (-1 = 0 ->
     ((1 / 2 <= 0)%R -> v_vf = NInf) /\ ((0 < 1 / 2)%R -> v_vf = Fin (- 1 / (1 / 2))) /\
     ((1 / 2 <= 0)%R -> v_kt = NInf) /\ ((0 < 1 / 2)%R -> v_kt = Fin (- 1 / (1 / 2))))%R.
Proof.
  apply (boxcox_nonpositive_no_error Demo.models Demo.half Demo.half);
    [reflexivity|reflexivity|reflexivity|reflexivity|lra].
Defined.

(** C6, as the claim has it, fails: on the input -1 the normalizer of Vf
    raises nothing and returns NaN, and so does the one of Ktoluene. *)
Lemma boxcox_negative_returns_nan :
  (-1 <= 0)%R /\
  vf_bc Demo.models (-1) = Ok NaN /\ is_raise (vf_bc Demo.models (-1)) = false /\
  ktol_bc Demo.models (-1) = Ok NaN /\ is_raise (ktol_bc Demo.models (-1)) = false.
Proof.
  assert (Hvf : vf_bc Demo.models (-1) = Ok NaN).
  { rewrite (vf_bc_eq Demo.models Demo.half (1 / 2)); [|reflexivity..].
    rewrite special_boxcox_negative; [reflexivity|lra]. }
  assert (Hkt : ktol_bc Demo.models (-1) = Ok NaN).
  { rewrite (ktol_bc_eq Demo.models Demo.half (1 / 2)); [|reflexivity..].
    rewrite special_boxcox_negative; [reflexivity|lra]. }
  rewrite Hvf, Hkt. repeat split. lra.
Qed.

(** ** The input boundary *)

Lemma widget_bounds_documented f :
  min_value (widget f) = documented_min f /\ max_value (widget f) = documented_max f.
Proof. by destruct f. Qed.

Lemma from_widgets_reading s f :
  from_widgets s -> returns (widget f) (reading s f).
Proof. intros (H1 & H2 & H3 & H4 & H5). by destruct f. Qed.

(** C10. Every value the sidebar hands to the pipeline lies in the closed
    interval documented for its feature, the bounds of the widgets being
    the documented ones; so Vf and Ktoluene are strictly positive, and the
    Box-Cox normalizers return a finite number on them: the NaN and -inf
    branches of the transformation are out of reach of the page. *)
Theorem widgets_keep_documented_domain (s : sidebar) :
  from_widgets s ->
  (forall f : feature,
     min_value (widget f) = documented_min f /\
     max_value (widget f) = documented_max f /\
     (documented_min f <= reading s f <= documented_max f)%R) /\
  (0 < Vf s)%R /\ (0 < Ktoluene s)%R /\
  forall (models : gmap string pyobject) (o_vf o_kt : pyobject) (l_vf l_kt : R),
    models !! "lambda_vf" = Some o_vf -> obj_float o_vf = Some l_vf ->
    models !! "lambda_kt" = Some o_kt -> obj_float o_kt = Some l_kt ->
    exists y_vf y_kt : R,
      vf_bc models (Vf s) = Ok (Fin y_vf) /\
      ktol_bc models (Ktoluene s) = Ok (Fin y_kt).
Proof.
  intros Hs.
  assert (Hvf : (0 < Vf s)%R).
  { pose proof (from_widgets_reading s F_Vf Hs) as H.
    unfold returns in H. cbn in H. lra. }
  assert (Hkt : (0 < Ktoluene s)%R).
  { pose proof (from_widgets_reading s F_Ktoluene Hs) as H.
    unfold returns in H. cbn in H. lra. }
  split; [|split; [exact Hvf|split; [exact Hkt|]]].
  - intros f. destruct (widget_bounds_documented f) as [Hmin Hmax].
    split; [exact Hmin|]. split; [exact Hmax|].
    rewrite <- Hmin, <- Hmax. apply (from_widgets_reading s f Hs).
  - intros models o_vf o_kt l_vf l_kt Hmvf Hlvf Hmkt Hlkt.
    destruct (special_boxcox_BoxCox (Vf s) l_vf Hvf) as (y_vf & Ey_vf & _).
    destruct (special_boxcox_BoxCox (Ktoluene s) l_kt Hkt) as (y_kt & Ey_kt & _).
    exists y_vf, y_kt. split.
    + rewrite (vf_bc_eq models o_vf l_vf _ Hmvf Hlvf). by rewrite Ey_vf.
    + rewrite (ktol_bc_eq models o_kt l_kt _ Hmkt Hlkt). by rewrite Ey_kt.
Qed.

Lemma widgets_keep_documented_domain_witness :
  (forall f : feature,
     min_value (widget f) = documented_min f /\
     max_value (widget f) = documented_max f /\
     (documented_min f <= reading (defaults true) f <= documented_max f)%R) /\
  (0 < Vf (defaults true))%R /\ (0 < Ktoluene (defaults true))%R /\
  forall (models : gmap string pyobject) (o_vf o_kt : pyobject) (l_vf l_kt : R),
    models !! "lambda_vf" = Some o_vf -> obj_float o_vf = Some l_vf ->
    models !! "lambda_kt" = Some o_kt -> obj_float o_kt = Some l_kt ->
    exists y_vf y_kt : R,
      vf_bc models (Vf (defaults true)) = Ok (Fin y_vf) /\
      ktol_bc models (Ktoluene (defaults true)) = Ok (Fin y_kt).
Proof.
  apply (widgets_keep_documented_domain (defaults true)).
  unfold from_widgets, returns. cbn. lra.
Defined.

(** * More properties of the script *)

(** ** [load_models] (lines 60-72) *)

Lemma joblib_load_ok dir path o :
  joblib_load dir path = Ok o <-> pickles dir !! path = Some (Ok o).
Proof.
  unfold joblib_load. destruct (pickles dir !! path) as [[?|?]|]; split; congruence.
Qed.

Lemma joblib_load_raise dir path e :
  joblib_load dir path = Raise e <->
  (pickles dir !! path = None /\ e = FileNotFound path) \/
  pickles dir !! path = Some (Raise e).
Proof.
  unfold joblib_load, FileNotFound.
  destruct (pickles dir !! path) as [[?|?]|]; split.
  - discriminate.
  - intros [[? _]|?]; discriminate.
  - intros [= <-]. by right.
  - intros [[? _]|[= <-]]; [discriminate|reflexivity].
  - intros [= <-]. left. by split.
  - intros [[_ ->]|?]; [reflexivity|discriminate].
Qed.

(** A load that returns has unpickled the seven files, and the dict it
    returns holds the seven objects under the seven keys. *)
Lemma load_models_ok dir m :
  load_models dir = Ok m ->
  exists o_stack o_lcd o_gsa o_density o_kt o_vf o_TSN,
    pickles dir !! "stacking_model.pkl" = Some (Ok o_stack) /\
    pickles dir !! "qt_lcd.pkl" = Some (Ok o_lcd) /\
    pickles dir !! "qt_GSA.pkl" = Some (Ok o_gsa) /\
    pickles dir !! "qt_Density.pkl" = Some (Ok o_density) /\
    pickles dir !! "lambda_Ktoluene.pkl" = Some (Ok o_kt) /\
    pickles dir !! "lambda_vf.pkl" = Some (Ok o_vf) /\
    pickles dir !! "qt_TSN.pkl" = Some (Ok o_TSN) /\
    m = <["stack" := o_stack]> (<["qt_lcd" := o_lcd]> (<["qt_gsa" := o_gsa]>
        (<["qt_density" := o_density]> (<["lambda_kt" := o_kt]>
        (<["lambda_vf" := o_vf]> (<["qt_TSN" := o_TSN]> ∅)))))).
Proof.
  unfold load_models.
  repeat
    match goal with
    | |- context [Py.bind (joblib_load dir ?path) _] =>
        let H := fresh "Hload" in
        destruct (joblib_load dir path) as [?|?] eqn:H;
          [apply joblib_load_ok in H; cbn [Py.bind]|discriminate]
    end.
  intros [= <-]. by repeat eexists.
Qed.

(** X1. [load_models] returns a dict exactly when each of the seven pickle
    files it names is in the directory and unpickles to an object. *)
Theorem load_models_returns_iff_all_unpickle (dir : directory) :
  (exists m, load_models dir = Ok m) <->
  Forall (fun kf : string * string => unpickles dir (snd kf)) artifact_table.
Proof.
  split.
  - intros [m Hm].
    destruct (load_models_ok dir m Hm)
      as (o1 & o2 & o3 & o4 & o5 & o6 & o7 & H1 & H2 & H3 & H4 & H5 & H6 & H7 & _).
    unfold artifact_table, unpickles. repeat constructor; cbn [snd]; eauto.
  - unfold artifact_table, unpickles. intros Hall.
    repeat
      match goal with
      | H : Forall _ (_ :: _) |- _ => apply Forall_cons in H; destruct H as [[? ?] ?]
      end.
    cbn [snd] in *. unfold load_models, joblib_load.
    repeat
      match goal with
      | H : pickles dir !! ?f = Some _ |- _ => rewrite H; clear H; cbn [Py.bind]
      end.
    by eexists.
Qed.

(** X3. In the dict that [load_models] returns, a key is bound exactly when
    it is one of the seven keys of the table, and it is bound to the object
    of its own file: whatever is read back from the dict is what was loaded
    from the file of that key. *)
Theorem load_models_lookup (dir : directory) (m : gmap string pyobject) :
  load_models dir = Ok m ->
  forall key : string, m !! key = artifact_file key ≫= unpickled dir.
Proof.
  intros Hm key.
  destruct (load_models_ok dir m Hm)
    as (o1 & o2 & o3 & o4 & o5 & o6 & o7 & H1 & H2 & H3 & H4 & H5 & H6 & H7 & ->).
  unfold artifact_file, artifact_table. cbn [list_to_map foldr fst snd uncurry].
  rewrite !lookup_insert, !lookup_empty.
  repeat case_decide; subst; cbn [mbind option_bind]; unfold unpickled;
    rewrite ?H1, ?H2, ?H3, ?H4, ?H5, ?H6, ?H7; congruence.
Qed.

Lemma load_models_lookup_witness :
  Demo.models !! "lambda_kt" = artifact_file "lambda_kt" ≫= unpickled Demo.dir /\
  Demo.models !! "lambda_Ktoluene.pkl"
  = artifact_file "lambda_Ktoluene.pkl" ≫= unpickled Demo.dir.
Proof.
  split.
  - exact (load_models_lookup Demo.dir Demo.models eq_refl "lambda_kt").
  - exact (load_models_lookup Demo.dir Demo.models eq_refl "lambda_Ktoluene.pkl").
Defined.

(** The load stops at the [n]-th file of the table. *)
Ltac stops_at n :=
  exists (take n artifact_table), (drop (S n) artifact_table);
  match goal with
  | H : joblib_load _ ?file = Raise _ |- _ =>
      apply joblib_load_raise in H;
      eexists _, file; split; [reflexivity|]; split; [|exact H]
  end;
  unfold unpickles; cbn [take drop artifact_table];
  repeat constructor; cbn [snd];
  match goal with
  | H : joblib_load _ ?f = Ok _ |- exists _, _ !! ?f = _ =>
      apply joblib_load_ok in H; eauto
  end.

(** X2. A load that fails raises the exception of the first file, in the
    order of the dict display, that is missing or does not unpickle:
    [FileNotFoundError] for a file that is not there, the exception of the
    unpickling for one that is; the files before it were loaded, and the
    files after it were never opened. *)
Theorem load_models_first_failure (dir : directory) (e : exn) :
  load_models dir = Raise e ->
  exists (before after : list (string * string)) (key file : string),
    artifact_table = (before ++ (key, file) :: after)%list /\
    Forall (fun kf : string * string => unpickles dir (snd kf)) before /\
    ((pickles dir !! file = None /\ e = FileNotFound file) \/
     pickles dir !! file = Some (Raise e)).
Proof.
  unfold load_models.
  destruct (joblib_load dir "stacking_model.pkl") eqn:L0; cbn [Py.bind];
    [|intros [= <-]; stops_at 0%nat].
  destruct (joblib_load dir "qt_lcd.pkl") eqn:L1; cbn [Py.bind];
    [|intros [= <-]; stops_at 1%nat].
  destruct (joblib_load dir "qt_GSA.pkl") eqn:L2; cbn [Py.bind];
    [|intros [= <-]; stops_at 2%nat].
  destruct (joblib_load dir "qt_Density.pkl") eqn:L3; cbn [Py.bind];
    [|intros [= <-]; stops_at 3%nat].
  destruct (joblib_load dir "lambda_Ktoluene.pkl") eqn:L4; cbn [Py.bind];
    [|intros [= <-]; stops_at 4%nat].
  destruct (joblib_load dir "lambda_vf.pkl") eqn:L5; cbn [Py.bind];
    [|intros [= <-]; stops_at 5%nat].
  destruct (joblib_load dir "qt_TSN.pkl") eqn:L6; cbn [Py.bind];
    [discriminate|intros [= <-]; stops_at 6%nat].
Qed.

Lemma load_models_first_failure_witness :
  exists (before after : list (string * string)) (key file : string),
    artifact_table = (before ++ (key, file) :: after)%list /\
    Forall (fun kf : string * string => unpickles Cases.dir_without_GSA_and_TSN (snd kf))
      before /\
    ((pickles Cases.dir_without_GSA_and_TSN !! file = None /\
      FileNotFound "qt_GSA.pkl" = FileNotFound file) \/
     pickles Cases.dir_without_GSA_and_TSN !! file
     = Some (Raise (FileNotFound "qt_GSA.pkl"))).
Proof.
  exact (load_models_first_failure Cases.dir_without_GSA_and_TSN
           (FileNotFound "qt_GSA.pkl") eq_refl).
Defined.

(** X4. After a load that returns, each step of the prediction block works
    with the object of its own file: LCD, GSA and Density go through the
    transformers of [qt_lcd.pkl], [qt_GSA.pkl] and [qt_Density.pkl], Vf is
    raised to the exponent of [lambda_vf.pkl] and Ktoluene to the one of
    [lambda_Ktoluene.pkl], the vector goes to the regressor of
    [stacking_model.pkl] and its answer through the inverse of
    [qt_TSN.pkl]; no lookup in the dict fails. *)
Theorem steps_use_their_own_files (dir : directory) (m : gmap string pyobject) :
  load_models dir = Ok m ->
  exists o_stack o_lcd o_gsa o_density o_kt o_vf o_TSN : pyobject,
    (pickles dir !! "stacking_model.pkl" = Some (Ok o_stack) /\
     pickles dir !! "qt_lcd.pkl" = Some (Ok o_lcd) /\
     pickles dir !! "qt_GSA.pkl" = Some (Ok o_gsa) /\
     pickles dir !! "qt_Density.pkl" = Some (Ok o_density) /\
     pickles dir !! "lambda_Ktoluene.pkl" = Some (Ok o_kt) /\
     pickles dir !! "lambda_vf.pkl" = Some (Ok o_vf) /\
     pickles dir !! "qt_TSN.pkl" = Some (Ok o_TSN)) /\
    forall (x : R) (X : array_like) (p : pyfloat),
      lcd_q m x = (T <- transform o_lcd [[Num (Fin x)]] ;; index2 T 0 0)%py /\
      gsa_q m x = (T <- transform o_gsa [[Num (Fin x)]] ;; index2 T 0 0)%py /\
      density_q m x = (T <- transform o_density [[Num (Fin x)]] ;; index2 T 0 0)%py /\
      vf_bc m x = (y <- boxcox [x] o_vf ;; index1 y 0)%py /\
      ktol_bc m x = (y <- boxcox [x] o_kt ;; index1 y 0)%py /\
      pred_trans m X = (y <- predict o_stack X ;; index1 y 0)%py /\
      pred_orig m p = (T <- inverse_transform o_TSN [[Num p]] ;; index2 T 0 0)%py.
Proof.
  intros Hm.
  destruct (load_models_ok dir m Hm)
    as (o1 & o2 & o3 & o4 & o5 & o6 & o7 & H1 & H2 & H3 & H4 & H5 & H6 & H7 & ->).
  exists o1, o2, o3, o4, o5, o6, o7. split; [by repeat split|].
  intros x X p. by repeat split.
Qed.

Lemma steps_use_their_own_files_witness :
  exists o_stack o_lcd o_gsa o_density o_kt o_vf o_TSN : pyobject,
    (pickles Demo.dir !! "stacking_model.pkl" = Some (Ok o_stack) /\
     pickles Demo.dir !! "qt_lcd.pkl" = Some (Ok o_lcd) /\
     pickles Demo.dir !! "qt_GSA.pkl" = Some (Ok o_gsa) /\
     pickles Demo.dir !! "qt_Density.pkl" = Some (Ok o_density) /\
     pickles Demo.dir !! "lambda_Ktoluene.pkl" = Some (Ok o_kt) /\
     pickles Demo.dir !! "lambda_vf.pkl" = Some (Ok o_vf) /\
     pickles Demo.dir !! "qt_TSN.pkl" = Some (Ok o_TSN)) /\
    forall (x : R) (X : array_like) (p : pyfloat),
      lcd_q Demo.models x = (T <- transform o_lcd [[Num (Fin x)]] ;; index2 T 0 0)%py /\
      gsa_q Demo.models x = (T <- transform o_gsa [[Num (Fin x)]] ;; index2 T 0 0)%py /\
      density_q Demo.models x
      = (T <- transform o_density [[Num (Fin x)]] ;; index2 T 0 0)%py /\
      vf_bc Demo.models x = (y <- boxcox [x] o_vf ;; index1 y 0)%py /\
      ktol_bc Demo.models x = (y <- boxcox [x] o_kt ;; index1 y 0)%py /\
      pred_trans Demo.models X = (y <- predict o_stack X ;; index1 y 0)%py /\
      pred_orig Demo.models p
      = (T <- inverse_transform o_TSN [[Num p]] ;; index2 T 0 0)%py.
Proof. exact (steps_use_their_own_files Demo.dir Demo.models eq_refl). Defined.

(** ** The cache of [load_models] (line 60) *)

Lemma rerun_cached dir m s : rerun dir (Some m) s = Some m.
Proof. by rewrite rerun_eq. Qed.

Lemma rerun_loads dir m s : load_models dir = Ok m -> rerun dir None s = Some m.
Proof. intros Hm. rewrite rerun_eq. unfold cache_resource. by rewrite Hm. Qed.

Lemma rerun_fails dir e s : load_models dir = Raise e -> rerun dir None s = None.
Proof. intros He. rewrite rerun_eq. unfold cache_resource. by rewrite He. Qed.

Lemma process_through_cached m history : process_through (Some m) history = Some m.
Proof.
  unfold process_through. induction history as [|[dir s] history IH]; [reflexivity|].
  cbn [fold_left]. unfold rerun_in at 2. cbn [fst snd]. by rewrite rerun_cached.
Qed.

(** With the models in the cache, the page depends on the directory through
    its images only. *)
Lemma page_cached_images dir dir' m s :
  images dir = images dir' -> page dir (Some m) s = page dir' (Some m) s.
Proof.
  intros Himg. unfold page, script, cache_resource, after_load. cbn [fst].
  assert (Hshap : for_each (shap_section dir) shap_sections
                  = for_each (shap_section dir') shap_sections).
  { unfold shap_sections, for_each, shap_section, Image_open. by rewrite Himg. }
  by rewrite Hshap.
Qed.

Lemma page_loads dir m s :
  load_models dir = Ok m -> page dir None s = page dir (Some m) s.
Proof. intros Hm. unfold page, script, cache_resource. by rewrite Hm. Qed.

(** X5. Once a run has loaded the artifacts, the process predicts with them
    for the rest of its life: whatever runs follow and whatever the pickle
    files have become in the meantime, the cache still holds the dict of
    the first load, and a run renders what a fresh process would render on
    the pickles of that first load. *)
Theorem cached_models_outlive_files (dir : directory) (m : gmap string pyobject)
    (s0 : sidebar) (history : list (directory * sidebar))
    (now : directory) (s : sidebar) :
  load_models dir = Ok m ->
  process_through None ((dir, s0) :: history) = Some m /\
  page now (process_through None ((dir, s0) :: history)) s
  = page (mk_directory (pickles dir) (images now)) None s.
Proof.
  intros Hm.
  assert (Hproc : process_through None ((dir, s0) :: history) = Some m).
  { unfold process_through. cbn [fold_left]. unfold rerun_in at 2. cbn [fst snd].
    rewrite (rerun_loads dir m s0 Hm). apply process_through_cached. }
  split; [exact Hproc|]. rewrite Hproc.
  rewrite (page_loads (mk_directory (pickles dir) (images now)) m s Hm).
  by apply page_cached_images.
Qed.

Lemma cached_models_outlive_files_witness :
  process_through None [(Demo.dir, defaults false); (Cases.retrained, defaults true)]
  = Some Demo.models /\
  page Cases.retrained
    (process_through None [(Demo.dir, defaults false); (Cases.retrained, defaults true)])
    (defaults true)
  = page (mk_directory (pickles Demo.dir) (images Cases.retrained)) None (defaults true).
Proof.
  exact (cached_models_outlive_files Demo.dir Demo.models (defaults false)
           [(Cases.retrained, defaults true)] Cases.retrained (defaults true) eq_refl).
Defined.

(** X6. A run whose load fails ends with the exception of the load and
    caches nothing: the next run loads again, and once the files are there
    it renders what a fresh process renders and caches the dict. *)
Theorem failed_load_is_retried (dir1 dir2 : directory) (s1 s2 : sidebar)
    (e : exn) (m : gmap string pyobject) :
  load_models dir1 = Raise e -> load_models dir2 = Ok m ->
  page dir1 None s1 = (Raise e, page_header) /\
  rerun dir1 None s1 = None /\
  page dir2 (rerun dir1 None s1) s2 = page dir2 None s2 /\
  process_through None [(dir1, s1); (dir2, s2)] = Some m.
Proof.
  intros He Hm.
  split; [unfold page; by rewrite (script_load_raises dir1 s1 e He)|].
  pose proof (rerun_fails dir1 e s1 He) as Hnone.
  split; [exact Hnone|]. split; [by rewrite Hnone|].
  unfold process_through, rerun_in. cbn [fold_left fst snd].
  rewrite Hnone. by apply rerun_loads.
Qed.

Lemma failed_load_is_retried_witness :
  page Demo.dir_without_TSN None (defaults true)
  = (Raise (FileNotFound "qt_TSN.pkl"), page_header) /\
  rerun Demo.dir_without_TSN None (defaults true) = None /\
  page Demo.dir (rerun Demo.dir_without_TSN None (defaults true)) (defaults true)
  = page Demo.dir None (defaults true) /\
  process_through None
    [(Demo.dir_without_TSN, defaults true); (Demo.dir, defaults true)]
  = Some Demo.models.
Proof.
  exact (failed_load_is_retried Demo.dir_without_TSN Demo.dir (defaults true)
           (defaults true) (FileNotFound "qt_TSN.pkl") Demo.models eq_refl eq_refl).
Defined.

(** ** The outcomes of the prediction block (lines 84-114) *)

Lemma prediction_logic_cases models s :
  predict_btn s = true ->
  prediction_logic models s =
  match transformed models s with
  | Raise e => (Ok tt, [error ("Prediction error: " ++ exn_str e)])
  | Ok df =>
      match predicted models df with
      | Raise e =>
          (Ok tt, (transformation_card df
                   ++ [error ("Prediction error: " ++ exn_str e)])%list)
      | Ok (p, o) => (Ok tt, (transformation_card df ++ result_card p o)%list)
      end
  end.
Proof.
  intros Hbtn. unfold prediction_logic. rewrite Hbtn, prediction_try_unfold.
  destruct (transformed models s) as [df|?]; [|reflexivity].
  destruct (predicted models df) as [[p o]|?]; reflexivity.
Qed.

(** X7. Every request made with the button ends in exactly one of two
    ways: the page of the block holds the table and the two prediction
    values and no error banner, or it holds one error banner and no
    prediction value (with the table or without it). *)
Theorem pressed_request_complete_or_failed (models : gmap string pyobject)
    (s : sidebar) :
  predict_btn s = true ->
  (exists p o : pyfloat,
     results (snd (prediction_logic models s))
     = [[Lit "**Transformed TSN**: "; Fix6 p]; [Lit "**Original TSN**: "; Fix6 o]] /\
     errors (snd (prediction_logic models s)) = [] /\
     length (tables (snd (prediction_logic models s))) = 1%nat) \/
  (exists msg : string,
     errors (snd (prediction_logic models s)) = [msg] /\
     results (snd (prediction_logic models s)) = [] /\
     (length (tables (snd (prediction_logic models s))) <= 1)%nat).
Proof.
  intros Hbtn. rewrite (prediction_logic_cases models s Hbtn).
  destruct (transformed models s) as [df|e].
  - destruct (predicted models df) as [[p o]|e].
    + left. exists p, o. by repeat split.
    + right. eexists. cbn. repeat split. lia.
  - right. eexists. cbn. repeat split. lia.
Qed.

Lemma pressed_request_complete_or_failed_witness :
  (exists p o : pyfloat,
     results (snd (prediction_logic Demo.models (defaults true)))
     = [[Lit "**Transformed TSN**: "; Fix6 p]; [Lit "**Original TSN**: "; Fix6 o]] /\
     errors (snd (prediction_logic Demo.models (defaults true))) = [] /\
     length (tables (snd (prediction_logic Demo.models (defaults true)))) = 1%nat) \/
  (exists msg : string,
     errors (snd (prediction_logic Demo.models (defaults true))) = [msg] /\
     results (snd (prediction_logic Demo.models (defaults true))) = [] /\
     (length (tables (snd (prediction_logic Demo.models (defaults true)))) <= 1)%nat).
Proof.
  exact (pressed_request_complete_or_failed Demo.models (defaults true) eq_refl).
Defined.

(** X8. When one of the five normalizers raises, the page of the block is
    the error banner alone; and the table is missing from the page of a
    request exactly when a normalizer raised: a failure of the predictor or
    of the de-normalizer comes after the table. *)
Theorem table_missing_iff_normalizer_raised (models : gmap string pyobject)
    (s : sidebar) :
  predict_btn s = true ->
  (forall e : exn,
     transformed models s = Raise e ->
     prediction_logic models s
     = (Ok tt, [error ("Prediction error: " ++ exn_str e)])) /\
  (tables (snd (prediction_logic models s)) = [] <->
   is_raise (transformed models s) = true).
Proof.
  intros Hbtn. rewrite (prediction_logic_cases models s Hbtn).
  destruct (transformed models s) as [df|e].
  - split; [discriminate|].
    destruct (predicted models df) as [[p o]|e]; by split.
  - split; [by intros ? [= <-]|by split].
Qed.

Lemma table_missing_iff_normalizer_raised_witness :
  prediction_logic Cases.models_unfitted_gsa (defaults true)
  = (Ok tt,
     [error ("Prediction error: "
             ++ "This QuantileTransformer instance is not fitted yet.")]) /\
  tables (snd (prediction_logic Cases.models_unfitted_gsa (defaults true))) = [].
Proof.
  destruct (table_missing_iff_normalizer_raised Cases.models_unfitted_gsa
              (defaults true) eq_refl) as [Hbanner Htable].
  split.
  - exact (Hbanner (mk_exn OtherError
                      "This QuantileTransformer instance is not fitted yet.")
             eq_refl).
  - apply Htable. reflexivity.
Defined.

Lemma pred_trans_answer models o f X y :
  models !! "stack" = Some o -> obj_predict o = Some f -> f X = Ok y ->
  pred_trans models X = index1 y 0.
Proof.
  intros Hm Ho Hy. unfold pred_trans, getitem, predict.
  rewrite Hm. cbn [Py.bind]. rewrite Ho, Hy. reflexivity.
Qed.

(** X9. Of what the regressor answers, the block reads row 0 and nothing
    else: the value shown and de-normalized is the first one, whatever
    follows it, and an answer with no row ends the request, after the
    table, with the banner of an [IndexError]. *)
Theorem only_first_prediction_is_read (models : gmap string pyobject)
    (s : sidebar) (a b c d e : pyfloat) (o : pyobject)
    (f : array_like -> result ndarray1) (y : ndarray1) :
  predict_btn s = true ->
  lcd_q models (LCD s) = Ok a -> vf_bc models (Vf s) = Ok b ->
  gsa_q models (GSA s) = Ok c -> density_q models (Density s) = Ok d ->
  ktol_bc models (Ktoluene s) = Ok e ->
  models !! "stack" = Some o -> obj_predict o = Some f ->
  f [[Num a; Num b; Num c; Num d; Num e]] = Ok y ->
  match y with
  | [] =>
      exists ex : exn,
        exn_cls ex = IndexError /\
        prediction_logic models s
        = (Ok tt,
           (transformation_card
              (df_trans (LCD s) (Vf s) (GSA s) (Density s) (Ktoluene s) a b c d e)
            ++ [error ("Prediction error: " ++ exn_str ex)])%list)
  | p :: _ =>
      prediction_logic models s
      = (Ok tt,
         (transformation_card
            (df_trans (LCD s) (Vf s) (GSA s) (Density s) (Ktoluene s) a b c d e)
          ++ match pred_orig models p with
             | Ok v => result_card p v
             | Raise ex => [error ("Prediction error: " ++ exn_str ex)]
             end)%list)
  end.
Proof.
  intros Hbtn Ha Hb Hc Hd He Hm Ho Hy.
  rewrite (prediction_logic_cases models s Hbtn).
  rewrite (transformed_ok models s a b c d e Ha Hb Hc Hd He).
  unfold predicted. rewrite X_user_df_trans. cbn [Py.bind].
  rewrite (pred_trans_answer models o f _ y Hm Ho Hy).
  destruct y as [|p rest]; cbn [index1 nth_error Py.bind].
  - eexists. split; [|reflexivity]. reflexivity.
  - by destruct (pred_orig models p).
Qed.

Lemma only_first_prediction_is_read_witness :
  exists ex : exn,
    exn_cls ex = IndexError /\
    prediction_logic Cases.models_no_rows (defaults true)
    = (Ok tt,
       (transformation_card
          (df_trans 8.33 0.5726 701.884 1.51454 0.013545 (Fin 8.33)
             (Demo.bc 0.5726) (Fin 701.884) (Fin 1.51454) (Demo.bc 0.013545))
        ++ [error ("Prediction error: " ++ exn_str ex)])%list).
Proof.
  apply (only_first_prediction_is_read Cases.models_no_rows (defaults true)
           (Fin 8.33) (Demo.bc 0.5726) (Fin 701.884) (Fin 1.51454)
           (Demo.bc 0.013545) (StackingRegressor Cases.no_rows) Cases.no_rows []).
  - reflexivity.
  - apply demo_lcd_q.
  - apply demo_vf_bc. cbn. lra.
  - apply demo_gsa_q.
  - apply demo_density_q.
  - apply demo_ktol_bc. cbn. lra.
  - reflexivity.
  - reflexivity.
  - reflexivity.
Defined.

(** ** The SHAP sections and the page as a whole (lines 116-139) *)

Lemma shap_section_through dir sec :
  runs_through dir sec -> shap_section dir sec = (Ok tt, section_elements dir sec).
Proof.
  destruct sec as [[ttl desc] path]. unfold runs_through. cbn [snd]. intros Hthrough.
  unfold shap_section, section_elements, Image_open.
  destruct (images dir !! path) as [[[]|e]|]; [reflexivity| |reflexivity].
  unfold lift, st, try_except. cbn [UI.bind].
  by rewrite (Hthrough e eq_refl).
Qed.

Lemma shap_section_refused dir ttl desc path e :
  refused dir (ttl, desc, path) e ->
  shap_section dir (ttl, desc, path)
  = (Raise e, [subheader ttl; markdown (text desc)]).
Proof.
  unfold refused. cbn [snd]. intros [Himg Hcls].
  unfold shap_section, Image_open. rewrite Himg.
  unfold lift, st, try_except. cbn [UI.bind]. by rewrite Hcls.
Qed.

(** A section runs through, or its image is refused. *)
Lemma shap_section_cases dir sec :
  runs_through dir sec \/ exists e, refused dir sec e.
Proof.
  destruct sec as [[ttl desc] path]. unfold runs_through, refused. cbn [snd].
  destruct (images dir !! path) as [[[]|e]|]; [by left| |by left].
  destruct (is_FileNotFoundError e) eqn:Hcls.
  - left. by intros ? [= <-].
  - right. by exists e.
Qed.

Lemma for_each_through dir sections :
  Forall (runs_through dir) sections ->
  for_each (shap_section dir) sections
  = (Ok tt, flat_map (section_elements dir) sections).
Proof.
  induction 1 as [|sec sections Hsec _ IH]; [reflexivity|].
  cbn [for_each flat_map]. by rewrite (shap_section_through dir sec Hsec), bind_ok, IH.
Qed.

Lemma for_each_refused dir before ttl desc path after e :
  Forall (runs_through dir) before -> refused dir (ttl, desc, path) e ->
  for_each (shap_section dir) (before ++ (ttl, desc, path) :: after)
  = (Raise e,
     (flat_map (section_elements dir) before
      ++ [subheader ttl; markdown (text desc)])%list).
Proof.
  intros Hbefore Href. induction Hbefore as [|sec before Hsec _ IH].
  - cbn [app for_each flat_map].
    by rewrite (shap_section_refused dir ttl desc path e Href).
  - cbn [app for_each flat_map].
    rewrite (shap_section_through dir sec Hsec), bind_ok, IH. cbn [fst snd].
    by rewrite app_assoc.
Qed.

(** The SHAP loop renders no table, no prediction value and no error
    banner, however it ends. *)
Lemma shap_loop_quiet dir sections :
  tables (snd (for_each (shap_section dir) sections)) = [] /\
  results (snd (for_each (shap_section dir) sections)) = [] /\
  errors (snd (for_each (shap_section dir) sections)) = [].
Proof.
  induction sections as [|sec sections IH]; [by repeat split|].
  cbn [for_each].
  destruct (shap_section_cases dir sec) as [Hthrough|[e Href]].
  - rewrite (shap_section_through dir sec Hthrough), bind_ok. cbn [snd].
    rewrite tables_app, results_app, errors_app.
    destruct IH as (-> & -> & ->). destruct sec as [[ttl desc] path].
    unfold section_elements. by destruct (images dir !! path) as [[[]|?]|].
  - destruct sec as [[ttl desc] path].
    by rewrite (shap_section_refused dir ttl desc path e Href).
Qed.

(** X10. The loop over the SHAP sections renders the sections it is given
    in order: the title, the description, and then the image when its file
    opens, or a warning that names the file when [Image.open] raises
    [FileNotFoundError]; a missing image does not stop the sections after
    it.  A file that is there and that PIL refuses with another exception
    ends the loop with that exception, after the title and the description
    of its section: the handler of line 130 does not catch it, and the
    sections after it are not rendered. *)
Theorem shap_loop_until_refused (dir : directory) :
  (forall sections : list (string * string * string),
     Forall (runs_through dir) sections ->
     for_each (shap_section dir) sections
     = (Ok tt, flat_map (section_elements dir) sections)) /\
  (forall (before after : list (string * string * string))
          (ttl desc path : string) (e : exn),
     Forall (runs_through dir) before -> refused dir (ttl, desc, path) e ->
     for_each (shap_section dir) (before ++ (ttl, desc, path) :: after)
     = (Raise e,
        (flat_map (section_elements dir) before
         ++ [subheader ttl; markdown (text desc)])%list)).
Proof.
  split.
  - apply for_each_through.
  - intros before after ttl desc path e. apply for_each_refused.
Qed.

Lemma shap_loop_until_refused_witness :
  for_each (shap_section Cases.dir_one_image) shap_sections
  = (Ok tt, flat_map (section_elements Cases.dir_one_image) shap_sections) /\
  for_each (shap_section Cases.dir_bad_image) shap_sections
  = (Raise Cases.not_an_image,
     [subheader "1. Base Learners SHAP";
      markdown (text "SHAP summary from base models (RandomForest, XGB, etc.)")]).
Proof.
  split.
  - apply (proj1 (shap_loop_until_refused Cases.dir_one_image) shap_sections).
    unfold shap_sections, runs_through. repeat constructor; cbn; discriminate.
  - apply (proj2 (shap_loop_until_refused Cases.dir_bad_image) [] (drop 1 shap_sections)
             "1. Base Learners SHAP"
             "SHAP summary from base models (RandomForest, XGB, etc.)"
             "summary_plot.png" Cases.not_an_image).
    + constructor.
    + by split.
Defined.

(** X11. With the artifacts loaded, a run renders the header of the page,
    the header of the sidebar, what the prediction block rendered (nothing,
    the cards, or an error banner) and the SHAP header, whatever the block
    did.  When each of the three images opens or is missing, the three
    SHAP sections and the footer follow and the run returns: a failed
    prediction hides nothing of what follows it.  When an image file is
    refused by PIL, the run ends with that exception inside the SHAP loop,
    and the sections after it and the footer are not rendered. *)
Theorem page_layout (dir : directory) (models : gmap string pyobject)
    (s : sidebar) :
  (Forall (runs_through dir) shap_sections ->
   page dir (Some models) s
   = (Ok tt,
      (page_header
       ++ sidebar_header "🔧 Input Features"
       :: snd (prediction_logic models s)
       ++ header "🔬 SHAP Feature Contribution"
       :: flat_map (section_elements dir) shap_sections
       ++ [markdown footer])%list)) /\
  (forall (before after : list (string * string * string))
          (ttl desc path : string) (e : exn),
     shap_sections = (before ++ (ttl, desc, path) :: after)%list ->
     Forall (runs_through dir) before -> refused dir (ttl, desc, path) e ->
     page dir (Some models) s
     = (Raise e,
        (page_header
         ++ sidebar_header "🔧 Input Features"
         :: snd (prediction_logic models s)
         ++ header "🔬 SHAP Feature Contribution"
         :: flat_map (section_elements dir) before
         ++ [subheader ttl; markdown (text desc)])%list)).
Proof.
  split.
  - intros Hall. rewrite page_after_block, (for_each_through dir _ Hall).
    unfold st. by rewrite bind_ok.
  - intros before after ttl desc path e Hsplit Hbefore Href.
    rewrite page_after_block, Hsplit.
    by rewrite (for_each_refused dir before ttl desc path after e Hbefore Href).
Qed.

Lemma page_layout_witness :
  page Cases.dir_one_image (Some Demo.broken) (defaults true)
  = (Ok tt,
     (page_header
      ++ sidebar_header "🔧 Input Features"
      :: snd (prediction_logic Demo.broken (defaults true))
      ++ header "🔬 SHAP Feature Contribution"
      :: flat_map (section_elements Cases.dir_one_image) shap_sections
      ++ [markdown footer])%list) /\
  page Cases.dir_bad_image (Some Demo.broken) (defaults true)
  = (Raise Cases.not_an_image,
     (page_header
      ++ sidebar_header "🔧 Input Features"
      :: snd (prediction_logic Demo.broken (defaults true))
      ++ header "🔬 SHAP Feature Contribution"
      :: [subheader "1. Base Learners SHAP";
          markdown (text "SHAP summary from base models (RandomForest, XGB, etc.)")])%list).
Proof.
  split.
  - apply (proj1 (page_layout Cases.dir_one_image Demo.broken (defaults true))).
    unfold shap_sections, runs_through. repeat constructor; cbn; discriminate.
  - apply (proj2 (page_layout Cases.dir_bad_image Demo.broken (defaults true)) []
             (drop 1 shap_sections)
             "1. Base Learners SHAP"
             "SHAP summary from base models (RandomForest, XGB, etc.)"
             "summary_plot.png" Cases.not_an_image).
    + reflexivity.
    + constructor.
    + by split.
Defined.

(** X12. Without a press of the button the page shows no table, no
    prediction value and no error banner, and no artifact is consulted:
    the page is the same whatever the cached models and whatever the
    numbers in the sidebar. *)
Theorem idle_run_consults_no_artifact (dir : directory)
    (m m' : gmap string pyobject) (s s' : sidebar) :
  predict_btn s = false -> predict_btn s' = false ->
  page dir (Some m) s = page dir (Some m') s' /\
  tables (snd (page dir (Some m) s)) = [] /\
  results (snd (page dir (Some m) s)) = [] /\
  errors (snd (page dir (Some m) s)) = [].
Proof.
  intros Hs Hs'.
  assert (Hidle : forall models t, predict_btn t = false ->
            prediction_logic models t = (Ok tt, [])).
  { intros models t Ht. unfold prediction_logic. by rewrite Ht. }
  rewrite !page_after_block, (Hidle m s Hs), (Hidle m' s' Hs').
  split; [reflexivity|]. cbn [snd].
  destruct (shap_loop_quiet dir shap_sections) as (Ht & Hr & He).
  destruct (for_each (shap_section dir) shap_sections) as [[[]|e] out];
    cbn [snd] in Ht, Hr, He; unfold st; cbn [UI.bind snd];
    rewrite ?tables_app, ?results_app, ?errors_app, ?Ht, ?Hr, ?He;
    cbn; rewrite ?tables_app, ?results_app, ?errors_app, ?Ht, ?Hr, ?He;
    by repeat split.
Qed.

Lemma idle_run_consults_no_artifact_witness :
  page Cases.dir_one_image (Some Demo.models) (defaults false)
  = page Cases.dir_one_image (Some Demo.broken)
      (mk_sidebar 10 0.5 1000 1 1 false) /\
  tables (snd (page Cases.dir_one_image (Some Demo.models) (defaults false))) = [] /\
  results (snd (page Cases.dir_one_image (Some Demo.models) (defaults false))) = [] /\
  errors (snd (page Cases.dir_one_image (Some Demo.models) (defaults false))) = [].
Proof.
  exact (idle_run_consults_no_artifact Cases.dir_one_image Demo.models Demo.broken
           (defaults false) (mk_sidebar 10 0.5 1000 1 1 false) eq_refl eq_refl).
Defined.

(** ** The Box-Cox normalizers keep the order of their inputs *)

Section BoxCoxOrder.

Local Open Scope R_scope.

Lemma Rpower_base_increasing x1 x2 l :
  0 < l -> 0 < x1 -> x1 < x2 -> Rpower x1 l < Rpower x2 l.
Proof.
  intros Hl H1 H12. unfold Rpower. apply exp_increasing.
  apply Rmult_lt_compat_l; [exact Hl|]. by apply ln_increasing.
Qed.

Lemma Rpower_base_decreasing x1 x2 l :
  l < 0 -> 0 < x1 -> x1 < x2 -> Rpower x2 l < Rpower x1 l.
Proof.
  intros Hl H1 H12. unfold Rpower. apply exp_increasing.
  pose proof (ln_increasing x1 x2 H1 H12). nra.
Qed.

Lemma special_boxcox_increasing x1 x2 l :
  0 < x1 -> x1 < x2 ->
  exists y1 y2, special_boxcox x1 l = Fin y1 /\ special_boxcox x2 l = Fin y2 /\ y1 < y2.
Proof.
  intros H1 H12. assert (H2 : 0 < x2) by lra.
  destruct (Rtotal_order l 0) as [Hl|[->|Hl]].
  - exists ((Rpower x1 l - 1) / l), ((Rpower x2 l - 1) / l).
    rewrite !special_boxcox_power by lra. repeat split.
    pose proof (Rpower_base_decreasing x1 x2 l Hl H1 H12).
    pose proof (Rinv_neg l Hl). unfold Rdiv. nra.
  - exists (ln x1), (ln x2). rewrite !special_boxcox_log by lra.
    repeat split. by apply ln_increasing.
  - exists ((Rpower x1 l - 1) / l), ((Rpower x2 l - 1) / l).
    rewrite !special_boxcox_power by lra. repeat split.
    pose proof (Rpower_base_increasing x1 x2 l Hl H1 H12).
    pose proof (Rinv_pos l Hl). unfold Rdiv. nra.
Qed.

End BoxCoxOrder.

(** X13. On positive inputs the two Box-Cox normalizers are strictly
    increasing, whatever the fitted exponent is (positive, zero or
    negative): a larger Vf, or a larger Ktoluene, is always shown and fed
    to the regressor as a larger normalized value. *)
Theorem boxcox_normalizers_increasing (models : gmap string pyobject)
    (o_vf o_kt : pyobject) (l_vf l_kt x1 x2 : R) :
  models !! "lambda_vf" = Some o_vf -> obj_float o_vf = Some l_vf ->
  models !! "lambda_kt" = Some o_kt -> obj_float o_kt = Some l_kt ->
  (0 < x1)%R -> (x1 < x2)%R ->
  (exists y1 y2 : R,
     vf_bc models x1 = Ok (Fin y1) /\ vf_bc models x2 = Ok (Fin y2) /\ (y1 < y2)%R) /\
  (exists y1 y2 : R,
     ktol_bc models x1 = Ok (Fin y1) /\ ktol_bc models x2 = Ok (Fin y2) /\
     (y1 < y2)%R).
Proof.
  intros Hvf Hlvf Hkt Hlkt H1 H12. split.
  - destruct (special_boxcox_increasing x1 x2 l_vf H1 H12) as (y1 & y2 & E1 & E2 & Hlt).
    exists y1, y2. rewrite !(vf_bc_eq models o_vf l_vf _ Hvf Hlvf), E1, E2. by repeat split.
  - destruct (special_boxcox_increasing x1 x2 l_kt H1 H12) as (y1 & y2 & E1 & E2 & Hlt).
    exists y1, y2. rewrite !(ktol_bc_eq models o_kt l_kt _ Hkt Hlkt), E1, E2.
    by repeat split.
Qed.

Lemma boxcox_normalizers_increasing_witness :
  (exists y1 y2 : R,
     vf_bc Demo.models 0.2574 = Ok (Fin y1) /\
     vf_bc Demo.models 0.9182 = Ok (Fin y2) /\ (y1 < y2)%R) /\
  (exists y1 y2 : R,
     ktol_bc Demo.models 0.2574 = Ok (Fin y1) /\
     ktol_bc Demo.models 0.9182 = Ok (Fin y2) /\ (y1 < y2)%R).
Proof.
  apply (boxcox_normalizers_increasing Demo.models Demo.half Demo.half (1 / 2) (1 / 2));
    [reflexivity|reflexivity|reflexivity|reflexivity|lra|lra].
Defined.
